(** * ED Data Express archiver: crawl frontier and resource classifier

    A shallow embedding of [scraper/site_crawler.py] (class
    [EDDataExpressCrawler]) and of the classifier of
    [scraper/media_downloader.py] (method [MediaDownloader.get_media_type]),
    together with the properties of the crawl frontier: deduplication,
    domain scope, queue discipline, page budget, error isolation, and the
    derivation of file names and file types from URLs.

    Python [str] values are modelled as byte strings ([string]); Python
    [int] as [Z]; the [set] of visited URLs as a [gset string]; the files
    written below the output directory as a [gmap] from path to content. *)

From Stdlib Require Import ZArith Ascii String List Lia Permutation.
From Stdlib Require Import DecimalString.
From stdpp Require Import base decidable option list gmap strings.

Set Warnings "-clear-no-such-hyp".

Local Open Scope string_scope.
Local Open Scope list_scope.

(** ** Python string primitives *)

Module Str.

(** [c in s] for a one-character [c]. *)
Fixpoint contains (c : ascii) (s : string) : bool :=
  match s with
  | EmptyString => false
  | String a s' => if Ascii.eqb a c then true else contains c s'
  end.

(** [s.startswith(p)] and [s.endswith(p)]. *)
Definition startswith (p s : string) : bool := String.prefix p s.

Definition endswith (p s : string) : bool :=
  let n := String.length s in
  let k := String.length p in
  (k <=? n)%nat && String.eqb (String.substring (n - k) k s) p.

(** [s.endswith((p1, ..., pn))]. *)
Definition endswith_any (ps : list string) (s : string) : bool :=
  existsb (fun p => endswith p s) ps.

(** [s.split(c, 1)]: the text before the first [c], and the text after it
    when [c] occurs. *)
Fixpoint split1 (c : ascii) (s : string) : string * option string :=
  match s with
  | EmptyString => (EmptyString, None)
  | String a s' =>
      if Ascii.eqb a c then (EmptyString, Some s')
      else let '(h, t) := split1 c s' in (String a h, t)
  end.

(** [s.split(c)]: never the empty list. *)
Fixpoint split (c : ascii) (s : string) : list string :=
  match s with
  | EmptyString => [EmptyString]
  | String a s' =>
      if Ascii.eqb a c then EmptyString :: split c s'
      else match split c s' with
           | [] => [String a EmptyString]
           | h :: t => String a h :: t
           end
  end.

(** [c.join(l)]. *)
Fixpoint join (c : string) (l : list string) : string :=
  match l with
  | [] => EmptyString
  | [x] => x
  | x :: l' => x +:+ c +:+ join c l'
  end.

(** [s.lstrip(c)], [s.rstrip(c)] and [s.strip(c)] for a one-character [c]. *)
Fixpoint lstrip (c : ascii) (s : string) : string :=
  match s with
  | EmptyString => EmptyString
  | String a s' => if Ascii.eqb a c then lstrip c s' else s
  end.

Fixpoint rstrip (c : ascii) (s : string) : string :=
  match s with
  | EmptyString => EmptyString
  | String a s' =>
      let r := rstrip c s' in
      if Ascii.eqb a c && String.eqb r EmptyString then EmptyString
      else String a r
  end.

Definition strip (c : ascii) (s : string) : string := rstrip c (lstrip c s).

(** [s.replace(c, d)] for one-character [c] and [d]. *)
Fixpoint replace (c d : ascii) (s : string) : string :=
  match s with
  | EmptyString => EmptyString
  | String a s' => String (if Ascii.eqb a c then d else a) (replace c d s')
  end.

(** [s.replace(c, e)] for a one-character [c] and the empty string [e]. *)
Fixpoint remove (c : ascii) (s : string) : string :=
  match s with
  | EmptyString => EmptyString
  | String a s' => if Ascii.eqb a c then remove c s' else String a (remove c s')
  end.

Definition is_upper (a : ascii) : bool :=
  let n := nat_of_ascii a in (65 <=? n)%nat && (n <=? 90)%nat.

Definition is_alpha (a : ascii) : bool :=
  let n := nat_of_ascii a in
  ((65 <=? n)%nat && (n <=? 90)%nat) || ((97 <=? n)%nat && (n <=? 122)%nat).

Definition lower_ascii (a : ascii) : ascii :=
  if is_upper a then ascii_of_nat (nat_of_ascii a + 32) else a.

(** [s.lower()] on ASCII letters. *)
Fixpoint lower (s : string) : string :=
  match s with
  | EmptyString => EmptyString
  | String a s' => String (lower_ascii a) (lower s')
  end.

Fixpoint forallb (p : ascii -> bool) (s : string) : bool :=
  match s with
  | EmptyString => true
  | String a s' => p a && forallb p s'
  end.

(** Python truthiness of a string. *)
Definition truthy (s : string) : bool := negb (String.eqb s EmptyString).

(** [x in l] for a list of strings. *)
Definition mem (x : string) (l : list string) : bool :=
  existsb (String.eqb x) l.

End Str.

(** ** [urllib.parse]

    The part of CPython's [urllib.parse] the crawler calls: [urlparse]
    (fields [netloc] and [path]) and [urljoin].  The model follows
    [urlsplit], [_splitnetloc], [_splitparams], [urlunsplit], [urlunparse]
    and [urljoin] statement by statement.  The validation of bracketed
    (IPv6) and of non-ASCII network locations, which raises [ValueError],
    is outside the model. *)

Module urllib.

Record ParseResult := mkParseResult {
  scheme : string;
  netloc : string;
  path : string;
  params : string;
  query : string;
  fragment : string
}.

Definition uses_relative : list string :=
  [EmptyString; "ftp"; "http"; "gopher"; "nntp"; "imap"; "wais"; "file"; "https";
   "shttp"; "mms"; "prospero"; "rtsp"; "rtspu"; "sftp"; "svn"; "svn+ssh";
   "ws"; "wss"].

Definition uses_netloc : list string :=
  [EmptyString; "ftp"; "http"; "gopher"; "nntp"; "telnet"; "imap"; "wais"; "file";
   "mms"; "https"; "shttp"; "snews"; "prospero"; "rtsp"; "rtspu"; "rsync";
   "svn"; "svn+ssh"; "sftp"; "nfs"; "git"; "git+ssh"; "ws"; "wss"].

Definition uses_params : list string :=
  [EmptyString; "ftp"; "hdl"; "prospero"; "http"; "imap"; "https"; "shttp"; "rtsp";
   "rtspu"; "sip"; "sips"; "mms"; "sftp"; "tel"].

Definition scheme_chars : string :=
  "abcdefghijklmnopqrstuvwxyzABCDEFGHIJKLMNOPQRSTUVWXYZ0123456789+-.".

(** [url.lstrip(_WHATWG_C0_CONTROL_OR_SPACE)]: drop leading bytes up to
    and including the space. *)
Fixpoint lstrip_c0 (s : string) : string :=
  match s with
  | EmptyString => EmptyString
  | String a s' => if (nat_of_ascii a <=? 32)%nat then lstrip_c0 s' else s
  end.

(** Removal of [_UNSAFE_URL_BYTES_TO_REMOVE] (tab, carriage return, line
    feed). *)
Definition remove_unsafe (s : string) : string :=
  Str.remove (ascii_of_nat 10) (Str.remove (ascii_of_nat 13)
    (Str.remove (ascii_of_nat 9) s)).

(** [_splitnetloc(url, 2)] for a [url] that starts with two slashes: the
    text up to the first of [/], [?], [#], and the rest from that
    delimiter on. *)
Fixpoint splitnetloc (s : string) : string * string :=
  match s with
  | EmptyString => (EmptyString, EmptyString)
  | String a s' =>
      if Ascii.eqb a "/" || Ascii.eqb a "?" || Ascii.eqb a "#"
      then (EmptyString, s)
      else let '(n, r) := splitnetloc s' in (String a n, r)
  end.

(** The scheme test of [urlsplit]: a colon at a position [i > 0], an
    ASCII letter first, and only scheme characters before the colon. *)
Definition split_scheme (url : string) : option (string * string) :=
  match Str.split1 ":" url with
  | (String a s, Some rest) =>
      if Str.is_alpha a
         && Str.forallb (fun c => Str.contains c scheme_chars) (String a s)
      then Some (Str.lower (String a s), rest)
      else None
  | _ => None
  end.

(** [urlsplit(url, scheme)], as the tuple
    [(scheme, netloc, path, query, fragment)]. *)
Definition urlsplit (url scheme : string)
  : string * string * string * string * string :=
  let url := remove_unsafe (lstrip_c0 url) in
  let '(scheme, url) :=
    match split_scheme url with
    | Some (sch, rest) => (sch, rest)
    | None => (scheme, url)
    end in
  let '(netloc, url) :=
    if Str.startswith "//" url
    then splitnetloc (String.substring 2 (String.length url - 2) url)
    else (EmptyString, url) in
  let '(url, fragment) :=
    match Str.split1 "#" url with
    | (u, Some f) => (u, f)
    | (u, None) => (u, EmptyString)
    end in
  let '(url, query) :=
    match Str.split1 "?" url with
    | (u, Some q) => (u, q)
    | (u, None) => (u, EmptyString)
    end in
  (scheme, netloc, url, query, fragment).

(** [_splitparams(url)]: split at the first [;] of the last path segment. *)
Definition splitparams (url : string) : string * string :=
  let segs := Str.split "/" url in
  match Str.split1 ";" (List.last segs EmptyString) with
  | (seg, Some p) =>
      (Str.join "/" (List.removelast segs ++ [seg]), p)
  | (_, None) => (url, EmptyString)
  end.

Definition urlparse_with (url scheme0 : string) : ParseResult :=
  let '(scheme, netloc, url, query, fragment) := urlsplit url scheme0 in
  let '(url, params) :=
    if Str.mem scheme uses_params && Str.contains ";" url
    then splitparams url
    else (url, EmptyString) in
  mkParseResult scheme netloc url params query fragment.

(** [urlparse(url)]. *)
Definition urlparse (url : string) : ParseResult :=
  urlparse_with url EmptyString.

Definition urlunsplit (scheme netloc url query fragment : string) : string :=
  let url :=
    if Str.truthy netloc
       || (Str.truthy scheme && Str.mem scheme uses_netloc
           && negb (Str.startswith "//" url))
    then "//" +:+ netloc +:+
         (if Str.truthy url && negb (Str.startswith "/" url)
          then "/" +:+ url else url)
    else url in
  let url := if Str.truthy scheme then scheme +:+ ":" +:+ url else url in
  let url := if Str.truthy query then url +:+ "?" +:+ query else url in
  if Str.truthy fragment then url +:+ "#" +:+ fragment else url.

Definition urlunparse (scheme netloc url params query fragment : string)
  : string :=
  let url := if Str.truthy params then url +:+ ";" +:+ params else url in
  urlunsplit scheme netloc url query fragment.

(** The loop of [urljoin] over the path segments: [..] pops, [.] is
    skipped. *)
Fixpoint resolve (segments resolved_path : list string) : list string :=
  match segments with
  | [] => resolved_path
  | seg :: rest =>
      if String.eqb seg ".." then resolve rest (List.removelast resolved_path)
      else if String.eqb seg "." then resolve rest resolved_path
      else resolve rest (resolved_path ++ [seg])
  end.

(** [segments[1:-1] = filter(None, segments[1:-1])]. *)
Definition filter_inner (segments : list string) : list string :=
  match segments with
  | [] => []
  | [x] => [x]
  | x :: rest =>
      x :: List.filter Str.truthy (List.removelast rest)
        ++ [List.last rest EmptyString]
  end.

(** [urljoin(base, url)]. *)
Definition urljoin (base url : string) : string :=
  if negb (Str.truthy base) then url
  else if negb (Str.truthy url) then base
  else
    let b := urlparse base in
    let u := urlparse_with url (scheme b) in
    if negb (String.eqb (scheme u) (scheme b))
       || negb (Str.mem (scheme u) uses_relative)
    then url
    else if Str.mem (scheme u) uses_netloc && Str.truthy (netloc u)
    then urlunparse (scheme u) (netloc u) (path u) (params u) (query u)
           (fragment u)
    else
      let netloc' :=
        if Str.mem (scheme u) uses_netloc then netloc b else netloc u in
      if negb (Str.truthy (path u)) && negb (Str.truthy (params u))
      then urlunparse (scheme u) netloc' (path b) (params b)
             (if negb (Str.truthy (query u)) then query b else query u)
             (fragment u)
      else
        let base_parts := Str.split "/" (path b) in
        let base_parts :=
          if negb (String.eqb (List.last base_parts EmptyString) EmptyString)
          then List.removelast base_parts else base_parts in
        let segments :=
          if Str.startswith "/" (path u) then Str.split "/" (path u)
          else filter_inner (base_parts ++ Str.split "/" (path u)) in
        let resolved_path := resolve segments [] in
        let resolved_path :=
          if Str.mem (List.last segments EmptyString) ["."; ".."]
          then resolved_path ++ [EmptyString] else resolved_path in
        let joined := Str.join "/" resolved_path in
        urlunparse (scheme u) netloc'
          (if Str.truthy joined then joined else "/")
          (params u) (query u) (fragment u).

End urllib.

(** ** [os.path.join] (POSIX) *)

Module os_path.

(** One round of the loop of [posixpath.join]. *)
Definition join2 (path b : string) : string :=
  if Str.startswith "/" b then b
  else if negb (Str.truthy path) || Str.endswith "/" path then path +:+ b
  else path +:+ "/" +:+ b.

(** [os.path.join(a, *p)]. *)
Definition join (a : string) (p : list string) : string :=
  fold_left join2 p a.

End os_path.

(** ** [MediaDownloader]: the resource classifier *)

Module MediaDownloader.

Definition document_content_types : list string :=
  ["application/pdf";
   "application/msword";
   "application/vnd.openxmlformats-officedocument.wordprocessingml.document";
   "application/vnd.ms-excel";
   "application/vnd.openxmlformats-officedocument.spreadsheetml.sheet";
   "application/vnd.ms-powerpoint";
   "application/vnd.openxmlformats-officedocument.presentationml.presentation"].

(** The fallback of [get_media_type] on the extension of the URL path. *)
Definition media_type_of_extension (url : string) : string :=
  let path := Str.lower (urllib.path (urllib.urlparse url)) in
  if Str.endswith_any
       [".jpg"; ".jpeg"; ".png"; ".gif"; ".svg"; ".webp"; ".ico"] path
  then "images"
  else if Str.endswith_any [".mp4"; ".webm"; ".ogg"; ".mov"; ".avi"] path
  then "videos"
  else if Str.endswith_any
            [".pdf"; ".doc"; ".docx"; ".xls"; ".xlsx"; ".ppt"; ".pptx"] path
  then "documents"
  else "other".

(** [get_media_type(url, content_type=None)]: the content type is looked
    at first when it is given and not empty; when none of its three tests
    matches, control falls through to the extension. *)
Definition get_media_type (url : string) (content_type : option string)
  : string :=
  match content_type with
  | Some ct =>
      if Str.truthy ct then
        if Str.startswith "image/" ct then "images"
        else if Str.startswith "video/" ct then "videos"
        else if Str.mem ct document_content_types then "documents"
        else media_type_of_extension url
      else media_type_of_extension url
  | None => media_type_of_extension url
  end.

End MediaDownloader.

(** ** [EDDataExpressCrawler]: the crawl frontier *)

Module Crawler.

(** What a call into a collaborator gives back: the text, or the
    exception it raised, as [str(e)]. *)
Inductive result :=
  | Ok (content : string)
  | Raise (reason : string).

(** What [BeautifulSoup(html, "html.parser")] answers to the three
    [find_all] queries of [extract_links], each in document order:
    the [href] of every [a] tag that has one, the [src] of every [script]
    tag that has one, the [href] of every [link rel="stylesheet"] tag
    that has one. *)
Record Soup := mkSoup {
  a_href : list string;
  script_src : list string;
  link_stylesheet_href : list string
}.

(** The collaborators of the crawler.
    - [driver_page_source url] is [self.driver.get(url); time.sleep(2);
      self.driver.page_source].
    - [requests_get_text url] is [requests.get(url, timeout=30)], then
      [raise_for_status()], then [response.text].
    - [write_file path content] is [open(path, "w")] and [f.write(content)]:
      [None] when the file was written, [Some reason] when an exception was
      raised.
    - [BeautifulSoup] is the HTML parser. *)
Record World := mkWorld {
  driver_page_source : string -> result;
  requests_get_text : string -> result;
  write_file : string -> string -> option string;
  BeautifulSoup : string -> Soup
}.

(** A call into a fetch collaborator. *)
Inductive call :=
  | DriverGet (url : string)
  | RequestsGet (url : string).

Definition call_url (c : call) : string :=
  match c with DriverGet u => u | RequestsGet u => u end.

Inductive level := INFO | ERROR.

(** The object state ([base_url], [output_dir], [visited_urls],
    [url_queue], [domain]) followed by what the crawler has done to its
    environment: the calls into the fetch collaborators, oldest first; the
    files written, by path; the records handed to the logger, oldest
    first. *)
Record crawler := mkCrawler {
  base_url : string;
  output_dir : string;
  visited_urls : gset string;
  url_queue : list string;
  domain : string;
  calls : list call;
  files : gmap string string;
  log : list (level * string)
}.

Definition with_visited_urls (v : gset string) (self : crawler) : crawler :=
  mkCrawler (base_url self) (output_dir self) v (url_queue self)
    (domain self) (calls self) (files self) (log self).

Definition with_url_queue (q : list string) (self : crawler) : crawler :=
  mkCrawler (base_url self) (output_dir self) (visited_urls self) q
    (domain self) (calls self) (files self) (log self).

Definition with_calls (c : list call) (self : crawler) : crawler :=
  mkCrawler (base_url self) (output_dir self) (visited_urls self)
    (url_queue self) (domain self) c (files self) (log self).

Definition with_files (f : gmap string string) (self : crawler) : crawler :=
  mkCrawler (base_url self) (output_dir self) (visited_urls self)
    (url_queue self) (domain self) (calls self) f (log self).

Definition logger (l : level) (msg : string) (self : crawler) : crawler :=
  mkCrawler (base_url self) (output_dir self) (visited_urls self)
    (url_queue self) (domain self) (calls self) (files self)
    (log self ++ [(l, msg)]).

(** The URLs handed to a fetch collaborator, oldest first. *)
Definition fetched (self : crawler) : list string :=
  map call_url (calls self).

(** [__init__(base_url, output_dir)], once a web driver is set up. *)
Definition init (base_url output_dir : string) : crawler :=
  mkCrawler base_url output_dir ∅ [base_url]
    (urllib.netloc (urllib.urlparse base_url)) [] ∅ [].

(** [url_to_filename(url)]. *)
Definition url_to_filename (url : string) : string :=
  let path := urllib.path (urllib.urlparse url) in
  if String.eqb path EmptyString || String.eqb path "/" then "index.html"
  else
    let path := Str.replace "/" "_" (Str.strip "/" path) in
    if negb (Str.contains "." path) then path +:+ ".html" else path.

(** A discovered link: the dictionary with keys ["url"] and ["type"]. *)
Record link := mkLink { url : string; type : string }.

(** The file type [crawl] picks for a dequeued URL. *)
Definition file_type_of (current_url : string) : string :=
  if Str.endswith ".js" current_url then "js"
  else if Str.endswith ".css" current_url then "css"
  else "html".

Section WithWorld.

Context (W : World).

(** [download_file(url, file_type)]: the [try] block, and the [except]
    clause that logs and returns [None]. *)
Definition download_file (self : crawler) (url file_type : string)
  : crawler * option string :=
  let '(c, r) :=
    if String.eqb file_type "html"
    then (DriverGet url, driver_page_source W url)
    else (RequestsGet url, requests_get_text W url) in
  let self := with_calls (calls self ++ [c]) self in
  match r with
  | Raise e =>
      (logger ERROR ("Error downloading " +:+ url +:+ ": " +:+ e) self, None)
  | Ok content =>
      let filename := url_to_filename url in
      let filepath := os_path.join (output_dir self) [file_type; filename] in
      match write_file W filepath content with
      | Some e =>
          (logger ERROR ("Error downloading " +:+ url +:+ ": " +:+ e) self,
           None)
      | None =>
          let self := with_files (<[filepath := content]> (files self)) self in
          (logger INFO ("Downloaded " +:+ url +:+ " to " +:+ filepath) self,
           Some filepath)
      end
  end.

(** One of the three loops of [extract_links]: resolve each reference
    against the page URL and keep it when its network location is the
    crawler's domain. *)
Fixpoint same_domain_links (self : crawler) (page ty : string)
    (refs : list string) : list link :=
  match refs with
  | [] => []
  | href :: rest =>
      let absolute_url := urllib.urljoin page href in
      if String.eqb (urllib.netloc (urllib.urlparse absolute_url))
           (domain self)
      then mkLink absolute_url ty :: same_domain_links self page ty rest
      else same_domain_links self page ty rest
  end.

(** [extract_links(url, html_content)]. *)
Definition extract_links (self : crawler) (page html_content : string)
  : list link :=
  let soup := BeautifulSoup W html_content in
  same_domain_links self page "html" (a_href soup)
  ++ same_domain_links self page "js" (script_src soup)
  ++ same_domain_links self page "css" (link_stylesheet_href soup).

(** The members of [l] that are not in the visited set, in the order of
    [l]. *)
Definition unvisited (visited : gset string) (l : list string) : list string :=
  filter (fun u => u ∉ visited) l.

(** The loop of [crawl] over the discovered links. *)
Fixpoint enqueue (self : crawler) (discovered_links : list link) : crawler :=
  match discovered_links with
  | [] => self
  | l :: rest =>
      if bool_decide (url l ∈ visited_urls self)
      then enqueue self rest
      else enqueue (with_url_queue (url_queue self ++ [url l]) self) rest
  end.

(** The body of the [while] loop of [crawl], on the crawler and the local
    [page_count]. *)
Definition crawl_body (st : crawler * Z) : crawler * Z :=
  let '(self, page_count) := st in
  match url_queue self with
  | [] => st
  | current_url :: rest =>
      let self := with_url_queue rest self in
      if bool_decide (current_url ∈ visited_urls self)
      then (self, page_count)
      else
        let self := logger INFO ("Crawling: " +:+ current_url) self in
        let self :=
          with_visited_urls ({[current_url]} ∪ visited_urls self) self in
        let file_type := file_type_of current_url in
        let '(self, filepath) := download_file self current_url file_type in
        let self :=
          match filepath with
          | Some fp =>
              if Str.truthy fp && String.eqb file_type "html"
              then
                let html_content := default EmptyString (files self !! fp) in
                enqueue self (extract_links self current_url html_content)
              else self
          | None => self
          end in
        (self, (page_count + 1)%Z)
  end.

(** The condition of the [while] loop. *)
Definition loop_cond (max_pages : option Z) (st : crawler * Z) : bool :=
  match url_queue (fst st) with
  | [] => false
  | _ :: _ =>
      match max_pages with
      | None => true
      | Some m => (snd st <? m)%Z
      end
  end.

(** The [while] loop, with a bound on the number of iterations: [None]
    when the bound is reached before the condition fails. *)
Fixpoint crawl_loop (fuel : nat) (max_pages : option Z) (st : crawler * Z)
  : option (crawler * Z) :=
  if loop_cond max_pages st then
    match fuel with
    | O => None
    | S fuel' => crawl_loop fuel' max_pages (crawl_body st)
    end
  else Some st.

(** [crawl(max_pages)], started on [self]; the result carries the final
    [page_count]. *)
Definition crawl (fuel : nat) (max_pages : option Z) (self : crawler)
  : option (crawler * Z) :=
  crawl_loop fuel max_pages (self, 0%Z).

(** The state after at most [n] iterations of the loop. *)
Fixpoint iterations (n : nat) (max_pages : option Z) (st : crawler * Z)
  : crawler * Z :=
  match n with
  | O => st
  | S n' =>
      if loop_cond max_pages st
      then iterations n' max_pages (crawl_body st)
      else st
  end.

(** The links that processing [u] discovers: those of its rendered HTML
    when [u] is fetched as a page and both the fetch and the write
    succeed, none otherwise. *)
Definition discovered (self : crawler) (u : string) : list string :=
  if String.eqb (file_type_of u) "html" then
    match driver_page_source W u with
    | Ok content =>
        match write_file W
                (os_path.join (output_dir self) ["html"; url_to_filename u])
                content with
        | None => map url (extract_links self u content)
        | Some _ => []
        end
    | Raise _ => []
    end
  else [].

(** The URLs the crawl can reach from the seed. *)
Inductive reachable (self : crawler) : string -> Prop :=
  | reachable_seed : reachable self (base_url self)
  | reachable_link u v :
      reachable self u -> v ∈ discovered self u -> reachable self v.

(** What holds of every state [st] of the loop of a crawl started on the
    new crawler [self0]: the configuration is untouched; Visited holds the
    URLs handed to a fetch collaborator, each once, and [page_count] counts
    them; the queue and the fetched URLs are in the domain; Visited and the
    queue hold the seed, only reachable URLs, and every link discovered on
    a visited URL. *)
Record consistent (self0 : crawler) (st : crawler * Z) : Prop := mkConsistent {
  c_base : base_url (fst st) = base_url self0;
  c_out : output_dir (fst st) = output_dir self0;
  c_domain : domain (fst st) = domain self0;
  c_nodup : NoDup (fetched (fst st));
  c_visited : forall u, u ∈ visited_urls (fst st) <-> u ∈ fetched (fst st);
  c_count : snd st = Z.of_nat (length (fetched (fst st)));
  c_scope_queue :
    forall u, u ∈ url_queue (fst st) ->
      urllib.netloc (urllib.urlparse u) = domain self0;
  c_scope_fetched :
    forall u, u ∈ fetched (fst st) ->
      urllib.netloc (urllib.urlparse u) = domain self0;
  c_seed :
    base_url self0 ∈ visited_urls (fst st)
    \/ base_url self0 ∈ url_queue (fst st);
  c_closed :
    forall u v, u ∈ visited_urls (fst st) -> v ∈ discovered self0 u ->
      v ∈ visited_urls (fst st) \/ v ∈ url_queue (fst st);
  c_reach :
    forall u, u ∈ visited_urls (fst st) \/ u ∈ url_queue (fst st) ->
      reachable self0 u
}.

End WithWorld.

End Crawler.

(** ** Small sites to run the crawler on *)

Module Sites.

Import Crawler.

Definition A : string := "https://x/".
Definition B : string := "https://x/b".
Definition E : string := "https://x/e".

(** A parser that knows the pages of the sites below by their text. *)
Definition soup (html : string) : Soup :=
  if String.eqb html "<a href=/b>b</a> <a href=/c>c</a>"
  then mkSoup ["/b"; "/c"] [] []
  else if String.eqb html "<a href=/d>d</a>" then mkSoup ["/d"] [] []
  else if String.eqb html "<a href=/e>e</a>" then mkSoup ["/e"] [] []
  else if String.eqb html "<a href=/b>b</a> <a href=/b>again</a>"
  then mkSoup ["/b"; "/b"] [] []
  else if String.eqb html "<a href=#top>top</a>" then mkSoup ["#top"] [] []
  else if String.eqb html
            "<script src=/app.js> <script src=/app.js?v=2> <link rel=stylesheet href=/s.css>"
  then mkSoup [] ["/app.js"; "/app.js?v=2"] ["/s.css"]
  else if String.eqb html "<a href=https://y/>y</a> <a href=/b>b</a>"
  then mkSoup ["https://y/"; "/b"] [] []
  else mkSoup [] [] [].

Definition no_direct (u : string) : result := Raise "404 Client Error".

Definition always_writable (p content : string) : option string := None.





(** [A] links to [B] twice. *)
Definition twice_pages (u : string) : result :=
  if String.eqb u A then Ok "<a href=/b>b</a> <a href=/b>again</a>"
  else Ok "<p>leaf</p>".

Definition twice : World := mkWorld twice_pages no_direct always_writable soup.

(** [A] links to an anchor of itself. *)
Definition anchored_pages (u : string) : result :=
  Ok "<a href=#top>top</a>".

Definition anchored : World :=
  mkWorld anchored_pages no_direct always_writable soup.

(** [A] loads a script, the same script with a version query, and a
    stylesheet. *)
Definition assets_pages (u : string) : result :=
  if String.eqb u A
  then Ok "<script src=/app.js> <script src=/app.js?v=2> <link rel=stylesheet href=/s.css>"
  else Ok "<p>leaf</p>".

Definition assets_direct (u : string) : result :=
  if Str.endswith ".js" u then Ok "let x = 1;" else Ok "p { margin: 0 }".

Definition assets : World :=
  mkWorld assets_pages assets_direct always_writable soup.

(** [A] links to another host, then to [B]. *)
Definition abroad_pages (u : string) : result :=
  if String.eqb u A then Ok "<a href=https://y/>y</a> <a href=/b>b</a>"
  else Ok "<p>leaf</p>".

Definition abroad : World :=
  mkWorld abroad_pages no_direct always_writable soup.

Definition out : string := "data/raw".

End Sites.

(** ** More sites *)

Module MoreSites.

Import Crawler Sites.



End MoreSites.

(** ** [EDDataExpressCrawler.setup_selenium]: the choice of a browser *)

Module Selenium.

(** What a call of [_setup_chrome], [_setup_firefox] or [_setup_edge]
    comes to: the driver object; an exception inside its [try] block,
    which the method logs before it returns [None]; or an exception before
    the [try] block (the imports, the options), which reaches
    [setup_selenium]. *)
Inductive attempt (driver : Type) :=
  | Started (d : driver)
  | Failed (e : string)
  | Crashed (e : string).

Arguments Started {driver} d.
Arguments Failed {driver} e.
Arguments Crashed {driver} e.

Inductive record :=
  | Info (msg : string)
  | Warning (msg : string).

(** What [setup_selenium] ends in: [self.driver] is set, or
    [RuntimeError] is raised. *)
Inductive outcome (driver : Type) :=
  | Driver (d : driver)
  | RuntimeError (msg : string).

Arguments Driver {driver} d.
Arguments RuntimeError {driver} msg.

(** The methods in the order [setup_selenium] tries them: the name with
    the prefix [_setup_] removed, and the name the method uses in its own
    warning. *)
Definition browsers : list (string * string) :=
  [("chrome", "Chrome"); ("firefox", "Firefox"); ("edge", "Edge")].

Section Setup.

Context {driver : Type} (setup_browser : string -> attempt driver).

(** The loop of [setup_selenium] over the setup methods; the result
    carries the names of the methods that were called and the log. *)
Fixpoint try_browsers (methods : list (string * string))
    (called : list string) (log : list record)
  : outcome driver * list string * list record :=
  match methods with
  | [] =>
      (RuntimeError "Could not initialize any supported web driver",
       called, log)
  | (name, title) :: rest =>
      match setup_browser name with
      | Started d =>
          (Driver d, called ++ [name],
           log ++ [Info ("Successfully initialized " +:+ name +:+ " driver")])
      | Failed e =>
          try_browsers rest (called ++ [name])
            (log ++ [Warning (title +:+ " setup failed: " +:+ e)])
      | Crashed e =>
          try_browsers rest (called ++ [name])
            (log ++ [Warning ("Failed to initialize " +:+ name +:+ ": " +:+ e)])
      end
  end.

(** [setup_selenium()]. *)
Definition setup_selenium : outcome driver * list string * list record :=
  try_browsers browsers [] [].

End Setup.

(** A machine with Firefox only; the Chrome driver cannot be installed
    and the Edge module is missing. *)
Definition firefox_only (name : string) : attempt nat :=
  if String.eqb name "chrome" then Failed "Could not reach host"
  else if String.eqb name "firefox" then Started 7
  else Crashed "No module named webdriver_manager.microsoft".

End Selenium.

(** ** [MediaDownloader]: downloading the media of the archived pages *)

Module Media.

(** The answer to [requests.get(url, stream=True, timeout=30)] once
    [raise_for_status()] has passed: the two headers [download_media]
    reads, the chunks [iter_content(chunk_size=8192)] yields, and the
    exception that ends the stream after them, if there is one. *)
Record Response := mkResponse {
  header_content_type : option string;
  header_content_length : option string;
  body : list string;
  body_error : option string
}.

(** [requests.get] followed by [raise_for_status]: the response, or the
    exception as [str(e)]. *)
Inductive reply :=
  | Answer (r : Response)
  | Refused (e : string).

(** A [video] or [audio] tag: the [src] of its [source] children that have
    one, in document order, and its own [src] attribute. *)
Record MediaTag := mkMediaTag {
  sources : list string;
  src : option string
}.

(** What [BeautifulSoup(text, "html.parser")] answers to the queries of
    [extract_media_from_html], each in document order. *)
Record Soup := mkSoup {
  img_src : list string;
  videos : list MediaTag;
  audios : list MediaTag;
  object_embed_src : list string;
  a_href : list string
}.

(** The collaborators of the media downloader.
    - [requests_get] is the HTTP request with its status check.
    - [py_int s] is [int(s)]: the number, or the message of the
      [ValueError].
    - [py_hash] is the built-in [hash] on strings.
    - [guess_type url] is [mimetypes.guess_type(url)[0]] and
      [guess_extension] is [mimetypes.guess_extension].
    - [open_wb path] is [open(path, "wb")] and [write_chunk path chunk]
      is [f.write(chunk)]: [Some reason] when an exception is raised.
    - [path_exists], [listdir], [isfile] are their namesakes of [os] and
      [os.path]; [read_text path] is [open(path, "r").read()] on a file
      the downloader has not written.
    - [BeautifulSoup] is the HTML parser. *)
Record World := mkWorld {
  requests_get : string -> reply;
  py_int : string -> Z + string;
  py_hash : string -> Z;
  guess_type : string -> option string;
  guess_extension : string -> option string;
  open_wb : string -> option string;
  write_chunk : string -> string -> option string;
  path_exists : string -> bool;
  listdir : string -> list string;
  isfile : string -> bool;
  read_text : string -> Crawler.result;
  BeautifulSoup : string -> Soup
}.

(** The object state ([base_url], [output_dir], [domain],
    [downloaded_urls]) followed by what the downloader has done to its
    environment: the URLs it has requested, oldest first, each with
    whether [download_media] returned a path for it; the files it has
    written, by path; the log. *)
Record downloader := mkDownloader {
  base_url : string;
  output_dir : string;
  domain : string;
  downloaded_urls : gset string;
  requests : list (string * bool);
  files : gmap string string;
  log : list (Crawler.level * string)
}.

Definition with_downloaded_urls (d : gset string) (self : downloader)
  : downloader :=
  mkDownloader (base_url self) (output_dir self) (domain self) d
    (requests self) (files self) (log self).

Definition with_requests (r : list (string * bool)) (self : downloader)
  : downloader :=
  mkDownloader (base_url self) (output_dir self) (domain self)
    (downloaded_urls self) r (files self) (log self).

Definition with_files (f : gmap string string) (self : downloader)
  : downloader :=
  mkDownloader (base_url self) (output_dir self) (domain self)
    (downloaded_urls self) (requests self) f (log self).

Definition logger (l : Crawler.level) (msg : string) (self : downloader)
  : downloader :=
  mkDownloader (base_url self) (output_dir self) (domain self)
    (downloaded_urls self) (requests self) (files self)
    (log self ++ [(l, msg)]).

(** [__init__(base_url, output_dir)]. *)
Definition init (base_url output_dir : string) : downloader :=
  mkDownloader base_url output_dir
    (urllib.netloc (urllib.urlparse base_url)) ∅ [] ∅ [].

(** [os.path.basename(p)]: what follows the last slash. *)
Definition basename (p : string) : string :=
  List.last (Str.split "/" p) EmptyString.

Definition digit (d : Z) : ascii := ascii_of_nat (48 + Z.to_nat d).

(** The format [04d] on a number from [0] to [9999]. *)
Definition format_04d (v : Z) : string :=
  String (digit (v / 1000))
    (String (digit (v / 100 mod 10))
       (String (digit (v / 10 mod 10))
          (String (digit (v mod 10)) EmptyString))).

(** [str(n)] for a length. *)
Definition decimal (n : nat) : string :=
  NilZero.string_of_uint (Nat.to_uint n).

(** The extensions of the document links [extract_media_from_html]
    follows. *)
Definition document_extensions : list string :=
  [".pdf"; ".doc"; ".docx"; ".xls"; ".xlsx"; ".ppt"; ".pptx"].

Section WithWorld.

Context (W : World).

(** [url_to_filename(url)]. *)
Definition url_to_filename (url : string) : string :=
  let path := urllib.path (urllib.urlparse url) in
  let filename := basename path in
  let filename :=
    if negb (Str.truthy filename) then
      let filename := "file_" +:+ format_04d (py_hash W url mod 10000) in
      match guess_type W url with
      | Some content_type =>
          if Str.truthy content_type then
            match guess_extension W content_type with
            | Some ext => if Str.truthy ext then filename +:+ ext else filename
            | None => filename
            end
          else filename
      | None => filename
      end
    else filename in
  Str.replace "=" "_" (Str.replace "&" "_" (Str.replace "?" "_" filename)).

(** The loop of [download_media] over the chunks: what has been written
    to the file, and the exception of the write that failed, if one
    did. *)
Fixpoint save_chunks (path written : string) (chunks : list string)
  : string * option string :=
  match chunks with
  | [] => (written, None)
  | chunk :: rest =>
      if Str.truthy chunk then
        match write_chunk W path chunk with
        | Some e => (written, Some e)
        | None => save_chunks path (written +:+ chunk) rest
        end
      else save_chunks path written rest
  end.

(** The [except] clause of [download_media]. *)
Definition failed (self : downloader) (url e : string)
  : downloader * option string :=
  (logger Crawler.ERROR ("Error downloading media " +:+ url +:+ ": " +:+ e)
     (with_requests (requests self ++ [(url, false)]) self),
   None).

(** [download_media(url)]. *)
Definition download_media (self : downloader) (url : string)
  : downloader * option string :=
  if bool_decide (url ∈ downloaded_urls self) then (self, None)
  else
    match requests_get W url with
    | Refused e => failed self url e
    | Answer response =>
        let content_type := header_content_type response in
        match (match header_content_length response with
               | Some s => py_int W s
               | None => inl 0%Z
               end) with
        | inr e => failed self url e
        | inl file_size =>
            let media_type :=
              MediaDownloader.get_media_type url content_type in
            let filename := url_to_filename url in
            let output_path :=
              os_path.join (output_dir self) [media_type; filename] in
            match open_wb W output_path with
            | Some e => failed self url e
            | None =>
                let '(written, e) :=
                  save_chunks output_path EmptyString (body response) in
                let e := match e with Some _ => e | None => body_error response end in
                let self := with_files (<[output_path := written]> (files self)) self in
                match e with
                | Some e => failed self url e
                | None =>
                    let self :=
                      with_downloaded_urls ({[url]} ∪ downloaded_urls self)
                        self in
                    (logger Crawler.INFO
                       ("Downloaded media: " +:+ url +:+ " -> " +:+ output_path)
                       (with_requests (requests self ++ [(url, true)]) self),
                     Some output_path)
                end
            end
        end
    end.

(** The body of the loops over [video] and over [audio] tags. *)
Definition tag_urls (base_url : string) (t : MediaTag) : list string :=
  map (urllib.urljoin base_url) (sources t)
  ++ match src t with
     | Some s => if Str.truthy s then [urllib.urljoin base_url s] else []
     | None => []
     end.

(** The text of a file: what the downloader wrote there, or what was
    there before. *)
Definition read (self : downloader) (path : string) : Crawler.result :=
  match files self !! path with
  | Some text => Crawler.Ok text
  | None => read_text W path
  end.

(** [extract_media_from_html(html_file, base_url)]. *)
Definition extract_media_from_html (self : downloader)
    (html_file base_url : string) : downloader * list string :=
  match read self html_file with
  | Crawler.Raise e =>
      (logger Crawler.ERROR
         ("Error extracting media from " +:+ html_file +:+ ": " +:+ e) self,
       [])
  | Crawler.Ok text =>
      let soup := BeautifulSoup W text in
      (self,
       map (urllib.urljoin base_url) (img_src soup)
       ++ concat (map (tag_urls base_url) (videos soup))
       ++ concat (map (tag_urls base_url) (audios soup))
       ++ map (urllib.urljoin base_url) (object_embed_src soup)
       ++ map (urllib.urljoin base_url)
            (List.filter
               (fun href =>
                  Str.endswith_any document_extensions (Str.lower href))
               (a_href soup)))
  end.

(** The inner loop of [process_html_directory]: download what is in the
    domain. *)
Fixpoint download_all (self : downloader) (media_urls : list string)
  : downloader :=
  match media_urls with
  | [] => self
  | url :: rest =>
      if String.eqb (urllib.netloc (urllib.urlparse url)) (domain self)
      then download_all (fst (download_media self url)) rest
      else download_all self rest
  end.

(** The outer loop of [process_html_directory]. *)
Fixpoint process_files (self : downloader) (html_files : list string)
    (base_url : string) : downloader :=
  match html_files with
  | [] => self
  | html_file :: rest =>
      let '(self, media_urls) :=
        extract_media_from_html self html_file base_url in
      process_files (download_all self media_urls) rest base_url
  end.

(** The list of HTML files of [process_html_directory]. *)
Definition html_files_of (html_dir : string) : list string :=
  map (fun f => os_path.join html_dir [f])
    (List.filter
       (fun f => Str.endswith ".html" f && isfile W (os_path.join html_dir [f]))
       (listdir W html_dir)).

(** [process_html_directory(html_dir, base_url)]. *)
Definition process_html_directory (self : downloader)
    (html_dir base_url : string) : downloader :=
  if negb (path_exists W html_dir)
  then logger Crawler.ERROR
         ("HTML directory does not exist: " +:+ html_dir) self
  else
    let html_files := html_files_of html_dir in
    let self :=
      logger Crawler.INFO
        ("Found " +:+ decimal (length html_files)
         +:+ " HTML files to process") self in
    process_files self html_files base_url.

(** What holds of a downloader at every point of its life: the URLs in
    [downloaded_urls] are those a request succeeded for; every request
    went to the domain; no URL was requested after a request for it had
    succeeded. *)
Record sound (self : downloader) : Prop := mkSound {
  s_downloaded :
    forall u, u ∈ downloaded_urls self <-> (u, true) ∈ requests self;
  s_scope :
    forall u ok, (u, ok) ∈ requests self ->
      urllib.netloc (urllib.urlparse u) = domain self;
  s_once :
    forall before after u,
      requests self = before ++ (u, true) :: after ->
      u ∉ map fst after
}.

End WithWorld.

End Media.

(** ** A small archive to run the media downloader on *)

Module MediaSites.

Import Media.

(** A parser that knows the page below by its text. *)
Definition soup (html : string) : Soup :=
  if String.eqb html "<img src=/logo.png> <img src=/logo.png> <a href=/report.pdf> <img src=https://cdn.example/x.png>"
  then mkSoup ["/logo.png"; "/logo.png"; "https://cdn.example/x.png"]
         [] [] [] ["/report.pdf"]
  else mkSoup [] [] [] [] [].

(** The server: the logo comes in two chunks, the report breaks off. *)
Definition server (u : string) : reply :=
  if String.eqb u "https://x/logo.png"
  then Answer (mkResponse (Some "image/png") (Some "6") ["PNG"; "end"] None)
  else if String.eqb u "https://x/report.pdf"
  then Answer (mkResponse (Some "application/pdf") None ["%PDF"]
                 (Some "Connection broken"))
  else Refused "404 Client Error".

Definition int_of (s : string) : Z + string :=
  if String.eqb s "6" then inl 6%Z else inr "invalid literal for int()".

Definition disk (p : string) : Crawler.result :=
  if String.eqb p "data/raw/html/index.html"
  then Crawler.Ok "<img src=/logo.png> <img src=/logo.png> <a href=/report.pdf> <img src=https://cdn.example/x.png>"
  else Crawler.Raise "[Errno 2] No such file or directory".

Definition archive : World :=
  mkWorld server int_of (fun _ => 1234%Z) (fun _ => None) (fun _ => None)
    (fun _ => None) (fun _ _ => None)
    (fun p => String.eqb p "data/raw/html")
    (fun _ => ["index.html"; "notes.txt"])
    (fun _ => true) disk soup.

End MediaSites.

(** * Properties *)

(** ** Strings and paths *)

Section StringFacts.

Lemma truthy_append (a b : string) :
  Str.truthy (a +:+ b) = Str.truthy a || Str.truthy b.
Proof. destruct a; simpl; [destruct b|]; reflexivity. Qed.

Lemma truthy_startswith (p s : string) :
  Str.truthy p = true -> Str.startswith p s = true -> Str.truthy s = true.
Proof.
  destruct p as [|a p]; [discriminate|].
  destruct s as [|b s]; [discriminate|reflexivity].
Qed.

Lemma join2_truthy (path b : string) :
  Str.truthy path = true -> Str.truthy (os_path.join2 path b) = true.
Proof.
  intros Hp. unfold os_path.join2.
  destruct (Str.startswith "/" b) eqn:Hs.
  - eapply truthy_startswith; [|exact Hs]. reflexivity.
  - destruct (negb (Str.truthy path) || Str.endswith "/" path);
      rewrite !truthy_append, Hp; reflexivity.
Qed.

Lemma join2_html_truthy (path : string) :
  Str.truthy (os_path.join2 path "html") = true.
Proof.
  unfold os_path.join2. simpl Str.startswith.
  destruct (negb (Str.truthy path) || Str.endswith "/" path);
    rewrite !truthy_append; simpl; apply orb_true_r.
Qed.

Lemma html_path_truthy (out name : string) :
  Str.truthy (os_path.join out ["html"; name]) = true.
Proof. simpl. apply join2_truthy, join2_html_truthy. Qed.

Lemma replace_contains (c d : ascii) (s : string) :
  c <> d -> Str.contains c (Str.replace c d s) = false.
Proof.
  intros Hcd. induction s as [|a s IH]; simpl; [reflexivity|].
  destruct (Ascii.eqb a c) eqn:Hac.
  - destruct (Ascii.eqb d c) eqn:Hdc; [|exact IH].
    apply Ascii.eqb_eq in Hdc. congruence.
  - rewrite Hac. exact IH.
Qed.

Lemma contains_append (c : ascii) (a b : string) :
  Str.contains c (a +:+ b) = Str.contains c a || Str.contains c b.
Proof.
  induction a as [|x a IH]; simpl; [reflexivity|].
  destruct (Ascii.eqb x c); [reflexivity|exact IH].
Qed.

End StringFacts.

(** ** File names and media types *)

Section Classifier.

Import Crawler.

Lemma url_to_filename_no_slash (u : string) :
  Str.contains "/" (url_to_filename u) = false.
Proof.
  unfold url_to_filename.
  destruct (String.eqb (urllib.path (urllib.urlparse u)) EmptyString
            || String.eqb (urllib.path (urllib.urlparse u)) "/");
    [reflexivity|].
  set (p := Str.replace "/" "_" (Str.strip "/" (urllib.path (urllib.urlparse u)))).
  assert (Hp : Str.contains "/" p = false)
    by (apply replace_contains; discriminate).
  destruct (negb (Str.contains "." p)); [|exact Hp].
  rewrite contains_append, Hp. reflexivity.
Qed.

(** C4, as the code has it: [url_to_filename] looks at the path component
    of the URL only.  An empty path and the path [/] give [index.html];
    otherwise the slashes at both ends are stripped, every remaining slash
    becomes an underscore, and [.html] is appended when the name holds no
    dot.  The result never holds a slash.  The query string and the
    fragment are dropped, not carried into the name: the three URLs of the
    specification give [index.html], [a_b.html] and [c.html]. *)
Theorem url_to_filename_spec :
  forall u : string,
    let p := urllib.path (urllib.urlparse u) in
    let name := Str.replace "/" "_" (Str.strip "/" p) in
    (p = EmptyString \/ p = "/" -> url_to_filename u = "index.html")
    /\ (p <> EmptyString -> p <> "/" -> Str.contains "." name = false ->
        url_to_filename u = name +:+ ".html")
    /\ (p <> EmptyString -> p <> "/" -> Str.contains "." name = true ->
        url_to_filename u = name)
    /\ Str.contains "/" (url_to_filename u) = false
    /\ (forall u' : string,
          urllib.path (urllib.urlparse u') = p ->
          url_to_filename u' = url_to_filename u)
    /\ url_to_filename "https://x/" = "index.html"
    /\ url_to_filename "https://x/a/b" = "a_b.html"
    /\ url_to_filename "https://x/c?d=1&e=2" = "c.html".
Proof.
  intros u p name. unfold url_to_filename. fold p. fold name.
  repeat split.
  - intros [-> | ->]; reflexivity.
  - intros H1 H2 Hdot.
    apply String.eqb_neq in H1, H2. rewrite H1, H2, Hdot. reflexivity.
  - intros H1 H2 Hdot.
    apply String.eqb_neq in H1, H2. rewrite H1, H2, Hdot. reflexivity.
  - apply (url_to_filename_no_slash u).
  - intros u' ->. reflexivity.
Qed.

Lemma url_to_filename_spec_witness :
  url_to_filename "https://x/docs/guide?lang=en" = "docs_guide.html"
  /\ url_to_filename "https://x/docs/guide.pdf" = "docs_guide.pdf"
  /\ url_to_filename "https://x" = "index.html".
Proof.
  split; [|split].
  - apply (proj1 (proj2 (url_to_filename_spec "https://x/docs/guide?lang=en")));
      [discriminate | discriminate | reflexivity].
  - apply (proj1 (proj2 (proj2 (url_to_filename_spec "https://x/docs/guide.pdf"))));
      [discriminate | discriminate | reflexivity].
  - apply (proj1 (url_to_filename_spec "https://x")). left. reflexivity.
Defined.

(** C4, as stated, fails: [=] and [&] in a path are kept as they are, and
    a query string leaves no trace in the name. *)
Lemma url_to_filename_keeps_unsafe_characters :
  url_to_filename "https://x/p=1&q" = "p=1&q.html"
  /\ Str.contains "=" (url_to_filename "https://x/p=1&q") = true
  /\ Str.contains "&" (url_to_filename "https://x/p=1&q") = true
  /\ url_to_filename "https://x/c?d=1&e=2" = url_to_filename "https://x/c"
  /\ url_to_filename "https://x/c?d=1&e=2" <> "c_d_1_e_2.html"
  /\ url_to_filename "https://x/c?d=1&e=2" <> "c_d_1_e_2".
Proof. repeat split; try reflexivity; discriminate. Qed.

Import MediaDownloader.

Lemma startswith_head (a : ascii) (p s : string) (b : ascii) :
  Str.startswith (String a p) (String b s) = true -> a = b.
Proof.
  unfold Str.startswith. simpl.
  destruct (ascii_dec a b); [trivial|discriminate].
Qed.

(** C8: a content type that is given and matches the table decides the
    media type, whatever the extension of the URL: a type that starts with
    [image/] gives [images], one that starts with [video/] gives [videos],
    one of the seven office and PDF types gives [documents]; so
    [https://x/y.csv] declared as [image/png] is an image. *)
Theorem get_media_type_content_type_first :
  (forall url ct : string,
      Str.startswith "image/" ct = true ->
      get_media_type url (Some ct) = "images")
  /\ (forall url ct : string,
        Str.startswith "video/" ct = true ->
        get_media_type url (Some ct) = "videos")
  /\ (forall url ct : string,
        In ct document_content_types ->
        get_media_type url (Some ct) = "documents")
  /\ get_media_type "https://x/y.csv" (Some "image/png") = "images"
  /\ get_media_type "https://x/y.csv" None = "other".
Proof.
  repeat split.
  - intros url ct H. unfold get_media_type.
    rewrite (truthy_startswith "image/" ct eq_refl H), H. reflexivity.
  - intros url ct H. unfold get_media_type.
    rewrite (truthy_startswith "video/" ct eq_refl H), H.
    destruct ct as [|b ct]; [discriminate|].
    apply startswith_head in H. subst b. reflexivity.
  - intros url ct H. unfold get_media_type.
    simpl in H.
    repeat (destruct H as [<- | H]; [reflexivity|]).
    destruct H.
Qed.

Lemma get_media_type_content_type_first_witness :
  get_media_type "https://x/report.png" (Some "video/mp4") = "videos"
  /\ get_media_type "https://x/report.png" (Some "application/pdf")
     = "documents"
  /\ get_media_type "https://x/clip.mp4" (Some "image/gif") = "images".
Proof.
  split; [|split].
  - apply (proj1 (proj2 get_media_type_content_type_first)). reflexivity.
  - apply (proj1 (proj2 (proj2 get_media_type_content_type_first))).
    simpl. left. reflexivity.
  - apply (proj1 get_media_type_content_type_first). reflexivity.
Defined.

End Classifier.

(** ** One iteration of the crawl loop *)

Section CrawlStep.

Import Crawler.

Context (W : World).

Lemma with_url_queue_id (self : crawler) :
  with_url_queue (url_queue self) self = self.
Proof. destruct self; reflexivity. Qed.

Lemma enqueue_spec (links : list link) :
  forall self : crawler,
    enqueue self links
    = with_url_queue
        (url_queue self ++ unvisited (visited_urls self) (map url links)) self.
Proof.
  unfold unvisited.
  induction links as [|l links IH]; intros self; simpl.
  - rewrite app_nil_r, with_url_queue_id. reflexivity.
  - case_bool_decide as Hl.
    + rewrite IH, filter_cons_False by (intros Hn; apply Hn, Hl). reflexivity.
    + rewrite IH, filter_cons_True by exact Hl. simpl.
      rewrite <- app_assoc. reflexivity.
Qed.

Lemma same_domain_links_domain (self self' : crawler) (page ty : string)
    (refs : list string) :
  domain self = domain self' ->
  same_domain_links self page ty refs = same_domain_links self' page ty refs.
Proof.
  intros Hd. induction refs as [|href refs IH]; simpl; [reflexivity|].
  rewrite Hd, IH. reflexivity.
Qed.

Lemma extract_links_domain (self self' : crawler) (page html : string) :
  domain self = domain self' ->
  extract_links W self page html = extract_links W self' page html.
Proof.
  intros Hd. unfold extract_links.
  rewrite !(same_domain_links_domain self self') by exact Hd. reflexivity.
Qed.

Lemma same_domain_links_in (self : crawler) (page ty : string)
    (refs : list string) (l : link) :
  l ∈ same_domain_links self page ty refs ->
  urllib.netloc (urllib.urlparse (url l)) = domain self
  /\ exists href, href ∈ refs /\ url l = urllib.urljoin page href.
Proof.
  induction refs as [|href refs IH]; simpl; [intros H; inversion H|].
  destruct (String.eqb _ _) eqn:E.
  - intros H. apply elem_of_cons in H as [-> | H].
    + simpl. split; [apply String.eqb_eq, E|].
      exists href. split; [left|reflexivity].
    + destruct (IH H) as [H1 (h & H2 & H3)].
      split; [exact H1|]. exists h. split; [right; exact H2|exact H3].
  - intros H. destruct (IH H) as [H1 (h & H2 & H3)].
    split; [exact H1|]. exists h. split; [right; exact H2|exact H3].
Qed.

Lemma extract_links_in (self : crawler) (page html : string) (l : link) :
  l ∈ extract_links W self page html ->
  urllib.netloc (urllib.urlparse (url l)) = domain self
  /\ exists href, url l = urllib.urljoin page href.
Proof.
  unfold extract_links. rewrite !elem_of_app.
  intros [H | [H | H]]; apply same_domain_links_in in H;
    destruct H as [H1 (h & _ & H3)]; (split; [exact H1|exists h; exact H3]).
Qed.

Lemma discovered_domain (self self' : crawler) (u : string) :
  domain self = domain self' -> output_dir self = output_dir self' ->
  discovered W self u = discovered W self' u.
Proof.
  intros Hd Ho. unfold discovered. rewrite Ho.
  destruct (String.eqb _ _); [|reflexivity].
  destruct (driver_page_source W u); [|reflexivity].
  destruct (write_file W _ _); [reflexivity|].
  rewrite (extract_links_domain self self') by exact Hd. reflexivity.
Qed.

Lemma discovered_in_domain (self : crawler) (u v : string) :
  v ∈ discovered W self u ->
  urllib.netloc (urllib.urlparse v) = domain self.
Proof.
  unfold discovered.
  destruct (String.eqb _ _); [|intros H; inversion H].
  destruct (driver_page_source W u); [|intros H; inversion H].
  destruct (write_file W _ _); [intros H; inversion H|].
  intros H. apply list_elem_of_fmap in H as (l & -> & Hl).
  apply extract_links_in in Hl. apply Hl.
Qed.

(** The call [crawl] makes for a URL it has not visited. *)
Lemma crawl_body_seen (self : crawler) (pc : Z) (u : string)
    (rest : list string) :
  url_queue self = u :: rest -> u ∈ visited_urls self ->
  crawl_body W (self, pc) = (with_url_queue rest self, pc).
Proof.
  intros Hq Hv. unfold crawl_body. rewrite Hq. simpl visited_urls.
  rewrite bool_decide_true by exact Hv. reflexivity.
Qed.

Lemma crawl_body_fresh (self : crawler) (pc : Z) (u : string)
    (rest : list string) :
  url_queue self = u :: rest -> u ∉ visited_urls self ->
  let st := crawl_body W (self, pc) in
  snd st = (pc + 1)%Z
  /\ visited_urls (fst st) = {[u]} ∪ visited_urls self
  /\ url_queue (fst st)
     = rest ++ unvisited ({[u]} ∪ visited_urls self) (discovered W self u)
  /\ calls (fst st)
     = calls self
       ++ [if String.eqb (file_type_of u) "html"
           then DriverGet u else RequestsGet u]
  /\ base_url (fst st) = base_url self
  /\ output_dir (fst st) = output_dir self
  /\ domain (fst st) = domain self.
Proof.
  intros Hq Hv. unfold crawl_body, discovered, download_file.
  rewrite Hq. simpl visited_urls.
  rewrite bool_decide_false by exact Hv.
  pose proof (html_path_truthy (output_dir self) (url_to_filename u)) as Ht.
  unfold os_path.join in Ht. simpl fold_left in Ht.
  destruct (String.eqb (file_type_of u) "html") eqn:Hft.
  - apply String.eqb_eq in Hft. rewrite Hft.
    destruct (driver_page_source W u) as [content|e]; simpl.
    + destruct (write_file W _ content) eqn:Hw; simpl.
      * rewrite app_nil_r. repeat split; reflexivity.
      * rewrite Ht. simpl. rewrite lookup_insert_eq. simpl.
        rewrite enqueue_spec. simpl.
        repeat split; try reflexivity.
        do 3 f_equal. apply extract_links_domain. reflexivity.
    + rewrite app_nil_r. repeat split; reflexivity.
  - destruct (requests_get_text W u) as [content|e]; simpl.
    + destruct (write_file W _ content) eqn:Hw; simpl.
      * rewrite app_nil_r. repeat split; reflexivity.
      * rewrite andb_false_r, app_nil_r. repeat split; reflexivity.
    + rewrite app_nil_r. repeat split; reflexivity.
Qed.

End CrawlStep.

(** ** Invariants of the crawl loop *)

Section CrawlInvariant.

Import Crawler.

Context (W : World).

Lemma fetched_app (self : crawler) (c : call) (cs : list call) :
  calls self = cs ++ [c] -> fetched self = map call_url cs ++ [call_url c].
Proof. unfold fetched. intros ->. rewrite map_app. reflexivity. Qed.

Lemma call_url_fresh (u : string) :
  call_url (if String.eqb (file_type_of u) "html"
            then DriverGet u else RequestsGet u) = u.
Proof. destruct (String.eqb _ _); reflexivity. Qed.

Lemma consistent_init (b o : string) : consistent W (init b o) (init b o, 0%Z).
Proof.
  constructor; simpl; try reflexivity.
  - constructor.
  - intros u. split; intros H; [set_solver|inversion H].
  - intros u H. apply list_elem_of_singleton in H. subst u. reflexivity.
  - intros u H. inversion H.
  - right. left.
  - intros u v H. set_solver.
  - intros u [H | H]; [set_solver|].
    apply list_elem_of_singleton in H. subst u. apply (reachable_seed W (init b o)).
Qed.

Lemma consistent_body (self0 : crawler) (st : crawler * Z) :
  consistent W self0 st -> consistent W self0 (crawl_body W st).
Proof.
  destruct st as [self pc]. intros [Hb Ho Hd Hn Hv Hc Hsq Hsf Hseed Hcl Hr].
  simpl in Hb, Ho, Hd, Hn, Hv, Hc, Hsq, Hsf, Hseed, Hcl, Hr.
  destruct (url_queue self) as [|u rest] eqn:Hq.
  { unfold crawl_body. rewrite Hq.
    constructor; simpl; rewrite ?Hq; assumption. }
  destruct (decide (u ∈ visited_urls self)) as [Hu | Hu].
  - rewrite (crawl_body_seen W self pc u rest Hq Hu).
    constructor; simpl; try assumption.
    + intros x Hx. apply Hsq. right. exact Hx.
    + destruct Hseed as [H | H]; [left; exact H|].
      apply elem_of_cons in H as [-> | H]; [left; exact Hu|right; exact H].
    + intros x v Hx Hxv. destruct (Hcl x v Hx Hxv) as [H | H]; [left; exact H|].
      apply elem_of_cons in H as [-> | H]; [left; exact Hu|right; exact H].
    + intros x [H | H]; apply Hr; [left; exact H|right; right; exact H].
  - destruct (crawl_body_fresh W self pc u rest Hq Hu)
      as (Hpc & Hv' & Hq' & Hc' & Hb' & Ho' & Hd').
    destruct (crawl_body W (self, pc)) as [self' pc'].
    simpl in Hpc, Hv', Hq', Hc', Hb', Ho', Hd'.
    pose proof (fetched_app _ _ _ Hc') as Hf. rewrite call_url_fresh in Hf.
    fold (fetched self) in Hf.
    assert (Hdisc : discovered W self u = discovered W self0 u)
      by (apply discovered_domain; assumption).
    rewrite Hdisc in Hq'.
    assert (Huq : u ∈ u :: rest) by left.
    constructor; simpl.
    + congruence.
    + congruence.
    + congruence.
    + rewrite Hf. apply NoDup_app. split; [exact Hn|]. split.
      * intros x Hx Hx'. apply list_elem_of_singleton in Hx'. subst x.
        apply Hu, Hv, Hx.
      * apply NoDup_singleton.
    + intros x. rewrite Hv', Hf, elem_of_union, elem_of_singleton,
        elem_of_app, list_elem_of_singleton, Hv. tauto.
    + rewrite Hpc, Hf, length_app, Hc. simpl. lia.
    + intros x. rewrite Hq', elem_of_app. intros [Hx | Hx].
      * apply Hsq. right. exact Hx.
      * unfold unvisited in Hx. apply list_elem_of_filter in Hx as [_ Hx].
        rewrite <- Hd. rewrite <- Hdisc in Hx.
        apply (discovered_in_domain W self u x Hx).
    + intros x. rewrite Hf, elem_of_app, list_elem_of_singleton.
      intros [Hx | ->]; [apply Hsf, Hx|apply Hsq, Huq].
    + rewrite Hv', Hq', elem_of_union, elem_of_app.
      destruct Hseed as [H | H]; [left; right; exact H|].
      apply elem_of_cons in H as [-> | H];
        [left; left; apply elem_of_singleton; reflexivity
        |right; left; exact H].
    + intros x v. rewrite Hv', Hq'. intros Hx Hxv.
      destruct (decide (v ∈ {[u]} ∪ visited_urls self)) as [Hin | Hnin];
        [left; exact Hin|].
      right. apply elem_of_app.
      apply elem_of_union in Hx as [Hx | Hx].
      * apply elem_of_singleton in Hx. subst x. right.
        unfold unvisited. apply list_elem_of_filter. split; assumption.
      * destruct (Hcl x v Hx Hxv) as [H | H].
        { exfalso. apply Hnin, elem_of_union. right. exact H. }
        apply elem_of_cons in H as [-> | H]; [|left; exact H].
        exfalso. apply Hnin, elem_of_union. left.
        apply elem_of_singleton. reflexivity.
    + intros x. rewrite Hv', Hq', elem_of_union, elem_of_singleton, elem_of_app.
      intros [[-> | Hx] | [Hx | Hx]].
      * apply Hr. right. exact Huq.
      * apply Hr. left. exact Hx.
      * apply Hr. right. right. exact Hx.
      * unfold unvisited in Hx. apply list_elem_of_filter in Hx as [_ Hx].
        apply (reachable_link W self0 u x); [|exact Hx].
        apply Hr. right. exact Huq.
Qed.

Lemma consistent_iterations (self0 : crawler) (mp : option Z) (n : nat) :
  forall st, consistent W self0 st -> consistent W self0 (iterations W n mp st).
Proof.
  induction n as [|n IH]; intros st Hst; simpl; [exact Hst|].
  destruct (loop_cond mp st); [|exact Hst].
  apply IH, consistent_body, Hst.
Qed.

Lemma consistent_crawl (b o : string) (mp : option Z) (n : nat) :
  consistent W (init b o) (iterations W n mp (init b o, 0%Z)).
Proof. apply consistent_iterations, consistent_init. Qed.

End CrawlInvariant.

(** ** Effects of one iteration *)

Section CrawlEffects.

Import Crawler.

Context (W : World).

Lemma enqueue_same_urls (self : crawler) (links links' : list link) :
  map url links = map url links' -> enqueue self links = enqueue self links'.
Proof. intros H. rewrite !enqueue_spec, H. reflexivity. Qed.

(** The files and the log after the iteration that dequeues a URL not yet
    visited. *)
Lemma crawl_body_fresh_effects (self : crawler) (pc : Z) (u : string)
    (rest : list string) :
  url_queue self = u :: rest -> u ∉ visited_urls self ->
  let self' := fst (crawl_body W (self, pc)) in
  let filepath :=
    os_path.join (output_dir self) [file_type_of u; url_to_filename u] in
  let failed e :=
    files self' = files self
    /\ log self'
       = log self ++ [(INFO, "Crawling: " +:+ u);
                      (ERROR, "Error downloading " +:+ u +:+ ": " +:+ e)]
    /\ url_queue self' = rest in
  match (if String.eqb (file_type_of u) "html"
         then driver_page_source W u else requests_get_text W u) with
  | Raise e => failed e
  | Ok content =>
      match write_file W filepath content with
      | Some e => failed e
      | None =>
          files self' = <[filepath := content]> (files self)
          /\ log self'
             = log self ++ [(INFO, "Crawling: " +:+ u);
                            (INFO, "Downloaded " +:+ u +:+ " to " +:+ filepath)]
      end
  end.
Proof.
  intros Hq Hv. unfold crawl_body, download_file.
  rewrite Hq. simpl visited_urls.
  rewrite bool_decide_false by exact Hv.
  unfold os_path.join. simpl fold_left.
  destruct (String.eqb (file_type_of u) "html") eqn:Hft.
  - destruct (driver_page_source W u) as [content|e]; simpl.
    + destruct (write_file W _ content) eqn:Hw; simpl.
      * rewrite <- app_assoc. repeat split; reflexivity.
      * destruct (Str.truthy _ && _); [rewrite enqueue_spec|]; simpl;
          rewrite <- app_assoc; split; reflexivity.
    + rewrite <- app_assoc. repeat split; reflexivity.
  - destruct (requests_get_text W u) as [content|e]; simpl.
    + destruct (write_file W _ content) eqn:Hw; simpl.
      * rewrite <- app_assoc. repeat split; reflexivity.
      * rewrite andb_false_r. simpl. rewrite <- app_assoc. split; reflexivity.
    + rewrite <- app_assoc. repeat split; reflexivity.
Qed.

End CrawlEffects.

(** ** The frontier: deduplication, scope, queue discipline *)

Section Frontier.

Import Crawler.

Context (W : World).


(** C2: every URL handed to a fetch collaborator during a crawl has the
    network location of the seed URL, and link extraction keeps no link
    with another network location. *)
Theorem crawl_scope (b o : string) (mp : option Z) (n : nat) :
  Forall
    (fun c =>
       urllib.netloc (urllib.urlparse (call_url c))
       = urllib.netloc (urllib.urlparse b))
    (calls (fst (iterations W n mp (init b o, 0%Z))))
  /\ domain (fst (iterations W n mp (init b o, 0%Z)))
     = urllib.netloc (urllib.urlparse b)
  /\ (forall self page html,
        Forall
          (fun l => urllib.netloc (urllib.urlparse (url l)) = domain self)
          (extract_links W self page html)).
Proof.
  pose proof (consistent_crawl W b o mp n) as H.
  split; [|split].
  - apply Forall_forall. intros c Hc.
    apply (c_scope_fetched _ _ _ H). unfold fetched.
    apply list_elem_of_fmap. exists c. split; [reflexivity|exact Hc].
  - apply (c_domain _ _ _ H).
  - intros self page html. apply Forall_forall. intros l Hl.
    apply extract_links_in in Hl as [Hl _]. exact Hl.
Qed.

End Frontier.

(** ** Frontier entries: what is enqueued, and how it is fetched *)

Section Entries.

Import Crawler.

Context (W : World).

(** C3, as the code has it: a discovered link is tested against Visited
    only.  The queue grows by the URLs of the discovered links that are not
    in Visited, in their order and with their repetitions, whether or not
    the queue holds them already; a link in Visited is never enqueued.  A
    URL that was enqueued twice is fetched once: its second copy is
    dropped when it is dequeued, without a call to a fetch
    collaborator. *)
Theorem enqueue_checks_visited_only :
  (forall self links,
      url_queue (enqueue self links)
      = url_queue self ++ unvisited (visited_urls self) (map url links))
  /\ (forall self l, url l ∈ visited_urls self -> enqueue self [l] = self)
  /\ (forall self l,
        url l ∉ visited_urls self ->
        url_queue (enqueue self [l]) = url_queue self ++ [url l])
  /\ (forall self pc u rest,
        url_queue self = u :: rest -> u ∈ visited_urls self ->
        calls (fst (crawl_body W (self, pc))) = calls self
        /\ url_queue (fst (crawl_body W (self, pc))) = rest).
Proof.
  split; [|split; [|split]].
  - intros self links. rewrite enqueue_spec. reflexivity.
  - intros self l Hl. simpl. rewrite bool_decide_true by exact Hl. reflexivity.
  - intros self l Hl. simpl. rewrite bool_decide_false by exact Hl. reflexivity.
  - intros self pc u rest Hq Hu.
    rewrite (crawl_body_seen W self pc u rest Hq Hu). split; reflexivity.
Qed.

(** C9, as the code has it: a frontier entry is the string that [urljoin]
    gives for a reference, fragment included, and entries are compared as
    strings.  No string is handed to a fetch collaborator twice, and a link
    whose string is in Visited is not enqueued; a reference to a fragment
    of a page resolves to a string of its own. *)
Theorem entries_compared_as_strings (b o : string) (mp : option Z) (n : nat) :
  NoDup (fetched (fst (iterations W n mp (init b o, 0%Z))))
  /\ (forall self page html l,
        l ∈ extract_links W self page html ->
        exists href, url l = urllib.urljoin page href)
  /\ (forall self l, url l ∈ visited_urls self -> enqueue self [l] = self)
  /\ urllib.urljoin "https://x/" "#top" = "https://x/#top"
  /\ urllib.urljoin "https://x/a?q=1" "#top" = "https://x/a?q=1#top".
Proof.
  split; [|split; [|split; [|split]]].
  - apply (c_nodup _ _ _ (consistent_crawl W b o mp n)).
  - intros self page html l Hl. apply extract_links_in in Hl. apply Hl.
  - intros self l Hl. simpl. rewrite bool_decide_true by exact Hl. reflexivity.
  - reflexivity.
  - reflexivity.
Qed.

(** C10: the iteration that dequeues a URL not yet visited picks the fetch
    collaborator and the directory from the end of the URL string alone.
    A URL that ends in [.js] goes to the direct fetch and is written below
    [js], one that ends in [.css] goes to the direct fetch and is written
    below [css], every other URL goes to the renderer and is written
    below [html]; so does a script URL with a query string.  The queue
    holds URLs only: links that differ in their type alone are enqueued
    alike. *)
Theorem file_type_from_url_suffix :
  (forall self pc u rest,
      url_queue self = u :: rest -> u ∉ visited_urls self ->
      let self' := fst (crawl_body W (self, pc)) in
      let stored dir text :=
        write_file W (os_path.join (output_dir self) [dir; url_to_filename u])
          text = None ->
        files self'
        = <[os_path.join (output_dir self) [dir; url_to_filename u] := text]>
            (files self) in
      (Str.endswith ".js" u = true ->
       calls self' = calls self ++ [RequestsGet u]
       /\ forall text, requests_get_text W u = Ok text -> stored "js" text)
      /\ (Str.endswith ".js" u = false -> Str.endswith ".css" u = true ->
          calls self' = calls self ++ [RequestsGet u]
          /\ forall text, requests_get_text W u = Ok text -> stored "css" text)
      /\ (Str.endswith ".js" u = false -> Str.endswith ".css" u = false ->
          calls self' = calls self ++ [DriverGet u]
          /\ forall text,
               driver_page_source W u = Ok text -> stored "html" text))
  /\ (forall self links links',
        map url links = map url links' ->
        enqueue self links = enqueue self links')
  /\ file_type_of "https://x/app.js?v=2" = "html"
  /\ file_type_of "https://x/app.js" = "js"
  /\ file_type_of "https://x/s.css" = "css".
Proof.
  split; [|split; [|repeat split]].
  - intros self pc u rest Hq Hu self' stored.
    destruct (crawl_body_fresh W self pc u rest Hq Hu)
      as (_ & _ & _ & Hc & _).
    pose proof (crawl_body_fresh_effects W self pc u rest Hq Hu) as He.
    cbv zeta in He. fold self' in Hc, He.
    unfold stored. unfold file_type_of in Hc, He.
    split; [|split].
    + intros Hjs. rewrite Hjs in Hc, He.
      change (String.eqb "js" "html") with false in Hc, He.
      cbv beta iota in Hc, He.
      split; [exact Hc|]. intros text Ht Hw. rewrite Ht, Hw in He. apply He.
    + intros Hjs Hcss. rewrite Hjs, Hcss in Hc, He.
      change (String.eqb "css" "html") with false in Hc, He.
      cbv beta iota in Hc, He.
      split; [exact Hc|]. intros text Ht Hw. rewrite Ht, Hw in He. apply He.
    + intros Hjs Hcss. rewrite Hjs, Hcss in Hc, He.
      change (String.eqb "html" "html") with true in Hc, He.
      cbv beta iota in Hc, He.
      split; [exact Hc|]. intros text Ht Hw. rewrite Ht, Hw in He. apply He.
  - intros self links links'. apply enqueue_same_urls.
Qed.

End Entries.

(** ** Runs of the loop *)

Section CrawlRuns.

Import Crawler.

Context (W : World).











End CrawlRuns.

(** ** Error isolation, order and budget *)

Section CrawlOutcome.

Import Crawler.

Context (W : World).









End CrawlOutcome.

(** ** The properties on the small sites *)

Section OnSites.

Import Crawler Sites.

(** On the site that links to another host and to [B], only [A] and [B]
    are fetched. *)
Example crawl_scope_abroad :
  calls (fst (iterations abroad 5 None (init A out, 0%Z)))
  = [DriverGet "https://x/"; DriverGet "https://x/b"]
  /\ crawl abroad 5 None (init A out)
     = Some (iterations abroad 5 None (init A out, 0%Z)).
Proof. split; vm_compute; reflexivity. Qed.


(** C3, as stated, fails: after the first iteration on the site that links
    to [B] twice, the queue holds [B] twice. *)
Lemma queue_holds_duplicates :
  url_queue (fst (iterations twice 1 None (init A out, 0%Z)))
  = ["https://x/b"; "https://x/b"]
  /\ ~ NoDup (url_queue (fst (iterations twice 1 None (init A out, 0%Z)))).
Proof.
  assert (H : url_queue (fst (iterations twice 1 None (init A out, 0%Z)))
              = ["https://x/b"; "https://x/b"])
    by (vm_compute; reflexivity).
  split; [exact H|]. rewrite H. intros Hn.
  apply NoDup_cons in Hn as [Hn _]. apply Hn. left.
Qed.

(** A link to [B] found while [B] waits in the queue is enqueued again. *)
Lemma enqueue_checks_visited_only_witness :
  url_queue
    (enqueue (fst (iterations twice 1 None (init A out, 0%Z)))
       [mkLink B "html"])
  = [B; B; B].
Proof.
  rewrite (proj1 (proj2 (proj2 (enqueue_checks_visited_only twice)))
             (fst (iterations twice 1 None (init A out, 0%Z)))
             (mkLink B "html")).
  - vm_compute. reflexivity.
  - apply (bool_decide_unpack _). vm_compute. exact I.
Defined.

(** C9, as stated, fails: the page [https://x/] links to its own fragment
    [#top]; the two URLs have the same scheme, network location, path,
    parameters and query, and both are handed to the renderer. *)
Lemma fragment_variant_is_fetched_again :
  calls (fst (iterations anchored 2 None (init "https://x/" out, 0%Z)))
  = [DriverGet "https://x/"; DriverGet "https://x/#top"]
  /\ urllib.scheme (urllib.urlparse "https://x/#top")
     = urllib.scheme (urllib.urlparse "https://x/")
  /\ urllib.netloc (urllib.urlparse "https://x/#top")
     = urllib.netloc (urllib.urlparse "https://x/")
  /\ urllib.path (urllib.urlparse "https://x/#top")
     = urllib.path (urllib.urlparse "https://x/")
  /\ urllib.params (urllib.urlparse "https://x/#top")
     = urllib.params (urllib.urlparse "https://x/")
  /\ urllib.query (urllib.urlparse "https://x/#top")
     = urllib.query (urllib.urlparse "https://x/")
  /\ urllib.fragment (urllib.urlparse "https://x/#top") = "top".
Proof. repeat split; vm_compute; reflexivity. Qed.

(** A link to the very string that was visited is not enqueued. *)
Lemma entries_compared_as_strings_witness :
  enqueue (fst (iterations anchored 2 None (init A out, 0%Z)))
    [mkLink "https://x/#top" "html"]
  = fst (iterations anchored 2 None (init A out, 0%Z)).
Proof.
  apply (proj1 (proj2 (proj2
           (entries_compared_as_strings anchored A out None 0)))).
  apply (bool_decide_unpack _). vm_compute. exact I.
Defined.

(** On the site with assets: the script goes to the direct fetch, the
    script with a version query goes to the renderer and below [html]. *)
Lemma file_type_from_url_suffix_witness :
  calls (fst (crawl_body assets
                (fst (iterations assets 1 None (init A out, 0%Z)), 1%Z)))
  = [DriverGet "https://x/"; RequestsGet "https://x/app.js"]
  /\ calls (fst (crawl_body assets
                   (fst (iterations assets 2 None (init A out, 0%Z)), 2%Z)))
     = [DriverGet "https://x/"; RequestsGet "https://x/app.js";
        DriverGet "https://x/app.js?v=2"]
  /\ files (fst (crawl_body assets
                   (fst (iterations assets 2 None (init A out, 0%Z)), 2%Z)))
     !! "data/raw/html/app.js" = Some "<p>leaf</p>".
Proof.
  pose proof (proj1 (file_type_from_url_suffix assets)
                (fst (iterations assets 1 None (init A out, 0%Z))) 1%Z
                "https://x/app.js" ["https://x/app.js?v=2"; "https://x/s.css"])
    as H1.
  pose proof (proj1 (file_type_from_url_suffix assets)
                (fst (iterations assets 2 None (init A out, 0%Z))) 2%Z
                "https://x/app.js?v=2" ["https://x/s.css"])
    as H2.
  cbv zeta in H1, H2.
  destruct H1 as (H1 & _ & _);
    [vm_compute; reflexivity
    |apply (bool_decide_unpack _); vm_compute; exact I|].
  destruct H2 as (_ & _ & H2);
    [vm_compute; reflexivity
    |apply (bool_decide_unpack _); vm_compute; exact I|].
  destruct (H1 eq_refl) as [Hc1 _].
  destruct (H2 eq_refl eq_refl) as [Hc2 Hs2].
  split; [rewrite Hc1; vm_compute; reflexivity|].
  split; [rewrite Hc2; vm_compute; reflexivity|].
  rewrite (Hs2 "<p>leaf</p>" eq_refl eq_refl).
  apply lookup_insert_eq.
Defined.




End OnSites.

(** * Further properties of the crawler *)

Section CrawlerMore.

Import Crawler.

Context (W : World).





End CrawlerMore.

(** ** What the crawler writes *)

Section CrawlerFiles.

Import Crawler.

Context (W : World).

Lemma startswith_append (a b : string) : Str.startswith a (a +:+ b) = true.
Proof.
  unfold Str.startswith. induction a as [|x a IH]; simpl.
  - destruct b; reflexivity.
  - destruct (ascii_dec x x); [exact IH|congruence].
Qed.

Lemma append_assoc (a b c : string) : (a +:+ b) +:+ c = a +:+ (b +:+ c).
Proof.
  induction a as [|x a IH]; [reflexivity|].
  change (String x ((a +:+ b) +:+ c) = String x (a +:+ (b +:+ c))).
  f_equal. exact IH.
Qed.

Lemma join2_relative (path b : string) :
  Str.startswith "/" b = false -> exists t, os_path.join2 path b = path +:+ t.
Proof.
  intros Hb. unfold os_path.join2. rewrite Hb.
  destruct (negb (Str.truthy path) || Str.endswith "/" path).
  - exists b. reflexivity.
  - exists ("/" +:+ b). reflexivity.
Qed.

Lemma no_slash_relative (s : string) :
  Str.contains "/" s = false -> Str.startswith "/" s = false.
Proof.
  destruct s as [|a s]; [reflexivity|]. intros H.
  destruct (Str.startswith "/" (String a s)) eqn:E; [|reflexivity].
  apply startswith_head in E. subst a. simpl in H. discriminate H.
Qed.



(** Every name [url_to_filename] gives is a usable file name with a dot
    in it: it is not empty, holds a dot and holds no slash. *)
Theorem url_to_filename_is_a_name (u : string) :
  Str.truthy (url_to_filename u) = true
  /\ Str.contains "." (url_to_filename u) = true
  /\ Str.contains "/" (url_to_filename u) = false.
Proof.
  assert (Hdot : Str.contains "." (url_to_filename u) = true).
  { unfold url_to_filename.
    destruct (String.eqb _ _ || String.eqb _ _); [reflexivity|].
    set (name := Str.replace "/" "_"
                   (Str.strip "/" (urllib.path (urllib.urlparse u)))).
    destruct (Str.contains "." name) eqn:Hc; simpl; [exact Hc|].
    rewrite contains_append. apply orb_true_r. }
  split; [|split; [exact Hdot|apply url_to_filename_no_slash]].
  destruct (url_to_filename u); [discriminate|reflexivity].
Qed.





(** The links [extract_links] returns are the references of the page in
    the order anchors, scripts, stylesheets, each resolved against the
    page URL, without those that resolve outside the domain; references
    that occur twice are returned twice. *)
Theorem extract_links_urls (self : crawler) (page html : string) :
  map url (extract_links W self page html)
  = filter (fun v => urllib.netloc (urllib.urlparse v) = domain self)
      (map (urllib.urljoin page)
         (a_href (BeautifulSoup W html)
          ++ script_src (BeautifulSoup W html)
          ++ link_stylesheet_href (BeautifulSoup W html))).
Proof.
  assert (H : forall ty refs,
             map url (same_domain_links self page ty refs)
             = filter (fun v => urllib.netloc (urllib.urlparse v) = domain self)
                 (map (urllib.urljoin page) refs)).
  { intros ty refs. induction refs as [|href refs IH]; [reflexivity|].
    simpl. destruct (String.eqb _ _) eqn:E.
    - apply String.eqb_eq in E. rewrite filter_cons_True by exact E.
      simpl. rewrite IH. reflexivity.
    - apply String.eqb_neq in E. rewrite filter_cons_False by exact E.
      exact IH. }
  unfold extract_links. rewrite !map_app, !filter_app, !H. reflexivity.
Qed.

End CrawlerFiles.

(** * The choice of a browser *)

Section SeleniumFacts.

Import Selenium.

Context {driver : Type} (setup_browser : string -> attempt driver).

Lemma try_browsers_spec (methods : list (string * string)) :
  forall (called : list string) (log : list record),
    match try_browsers setup_browser methods called log with
    | (Driver d, called', _) =>
        exists i name title,
          methods !! i = Some (name, title)
          /\ setup_browser name = Started d
          /\ called' = called ++ map fst (take (S i) methods)
          /\ forall j n t,
               j < i -> methods !! j = Some (n, t) ->
               forall d', setup_browser n <> Started d'
    | (RuntimeError _, called', log') =>
        called' = called ++ map fst methods
        /\ length log' = length log + length methods
        /\ forall n t,
             (n, t) ∈ methods -> forall d', setup_browser n <> Started d'
    end.
Proof.
  induction methods as [|[name title] rest IH]; intros called log; simpl.
  - rewrite app_nil_r. split; [reflexivity|]. split; [lia|].
    intros n t H. inversion H.
  - destruct (setup_browser name) as [d|e|e] eqn:E.
    + exists 0, name, title. repeat split; try assumption.
      intros j n t Hj. lia.
    + specialize (IH (called ++ [name])
                    (log ++ [Warning (title +:+ " setup failed: " +:+ e)])).
      destruct (try_browsers _ _ _ _) as [[[d|msg] called'] log'].
      * destruct IH as (i & n & t & Hi & Hs & Hc & Hprev).
        exists (S i), n, t. split; [exact Hi|]. split; [exact Hs|].
        split; [rewrite Hc, <- app_assoc; reflexivity|].
        intros j n' t' Hj Hl d'. destruct j as [|j].
        -- simpl in Hl. injection Hl as <- <-. rewrite E. discriminate.
        -- apply (Hprev j n' t'); [lia|exact Hl].
      * destruct IH as (Hc & Hlen & Hall).
        split; [rewrite Hc, <- app_assoc; reflexivity|].
        split; [rewrite Hlen, length_app; simpl; lia|].
        intros n t H d'. apply elem_of_cons in H as [H | H].
        -- injection H as -> ->. rewrite E. discriminate.
        -- apply (Hall n t H).
    + specialize (IH (called ++ [name])
                    (log ++ [Warning ("Failed to initialize " +:+ name
                                      +:+ ": " +:+ e)])).
      destruct (try_browsers _ _ _ _) as [[[d|msg] called'] log'].
      * destruct IH as (i & n & t & Hi & Hs & Hc & Hprev).
        exists (S i), n, t. split; [exact Hi|]. split; [exact Hs|].
        split; [rewrite Hc, <- app_assoc; reflexivity|].
        intros j n' t' Hj Hl d'. destruct j as [|j].
        -- simpl in Hl. injection Hl as <- <-. rewrite E. discriminate.
        -- apply (Hprev j n' t'); [lia|exact Hl].
      * destruct IH as (Hc & Hlen & Hall).
        split; [rewrite Hc, <- app_assoc; reflexivity|].
        split; [rewrite Hlen, length_app; simpl; lia|].
        intros n t H d'. apply elem_of_cons in H as [H | H].
        -- injection H as -> ->. rewrite E. discriminate.
        -- apply (Hall n t H).
Qed.

(** [setup_selenium] takes the first of Chrome, Firefox, Edge whose setup
    gives a driver, and calls no setup method after it; it raises
    [RuntimeError] exactly when none of the three gives a driver, after
    it has called all three and logged a warning for each. *)
Theorem setup_selenium_takes_first_driver :
  match setup_selenium setup_browser with
  | (Driver d, called, _) =>
      exists i name title,
        browsers !! i = Some (name, title)
        /\ setup_browser name = Started d
        /\ called = map fst (take (S i) browsers)
        /\ forall j n t,
             j < i -> browsers !! j = Some (n, t) ->
             forall d', setup_browser n <> Started d'
  | (RuntimeError _, called, log) =>
      called = ["chrome"; "firefox"; "edge"]
      /\ length log = 3
      /\ forall d',
           setup_browser "chrome" <> Started d'
           /\ setup_browser "firefox" <> Started d'
           /\ setup_browser "edge" <> Started d'
  end.
Proof.
  unfold setup_selenium.
  pose proof (try_browsers_spec browsers [] []) as H.
  destruct (try_browsers setup_browser browsers [] [])
    as [[[d|msg] called] log].
  - exact H.
  - destruct H as (Hc & Hlen & Hall).
    split; [exact Hc|]. split; [exact Hlen|].
    intros d'. repeat split.
    + apply (Hall "chrome" "Chrome"). left.
    + apply (Hall "firefox" "Firefox"). right. left.
    + apply (Hall "edge" "Edge"). right. right. left.
Qed.

End SeleniumFacts.

(** * The media downloader *)

Section MediaNames.

Import Media.

Context (W : World).

Lemma get_media_type_cases (u : string) (ct : option string) :
  MediaDownloader.get_media_type u ct
  ∈ ["images"; "videos"; "documents"; "other"].
Proof.
  assert (He : MediaDownloader.media_type_of_extension u
               ∈ ["images"; "videos"; "documents"; "other"]).
  { unfold MediaDownloader.media_type_of_extension.
    destruct (Str.endswith_any _ _); [left|].
    destruct (Str.endswith_any _ _); [right; left|].
    destruct (Str.endswith_any _ _); [right; right; left|].
    right; right; right; left. }
  unfold MediaDownloader.get_media_type.
  destruct ct as [ct|]; [|exact He].
  destruct (Str.truthy ct); [|exact He].
  destruct (Str.startswith "image/" ct); [left|].
  destruct (Str.startswith "video/" ct); [right; left|].
  destruct (Str.mem ct _); [right; right; left|exact He].
Qed.

(** [get_media_type] always names one of the four directories that
    [MediaDownloader.__init__] creates below the output directory, and
    none of these names starts a path anew when it is joined to the
    output directory. *)
Theorem get_media_type_names_a_directory (u : string) (ct : option string) :
  MediaDownloader.get_media_type u ct
  ∈ ["images"; "videos"; "documents"; "other"]
  /\ forall o,
       Str.startswith o
         (os_path.join o [MediaDownloader.get_media_type u ct]) = true.
Proof.
  split; [apply get_media_type_cases|].
  intros o. unfold os_path.join. simpl fold_left.
  destruct (join2_relative o (MediaDownloader.get_media_type u ct))
    as [t E].
  - pose proof (get_media_type_cases u ct) as H.
    repeat (apply elem_of_cons in H as [-> | H]; [reflexivity|]).
    inversion H.
  - rewrite E. apply startswith_append.
Qed.

Lemma replace_keeps_absent (c x d : ascii) (s : string) :
  d <> c -> Str.contains c s = false ->
  Str.contains c (Str.replace x d s) = false.
Proof.
  intros Hd. induction s as [|a s IH]; simpl; [reflexivity|].
  destruct (Ascii.eqb a c) eqn:Hac; [discriminate|]. intros Hs.
  destruct (Ascii.eqb a x).
  - destruct (Ascii.eqb d c) eqn:Hdc; [|apply IH, Hs].
    apply Ascii.eqb_eq in Hdc. congruence.
  - rewrite Hac. apply IH, Hs.
Qed.


Lemma split_no_separator (c : ascii) (s : string) :
  forall piece, piece ∈ Str.split c s -> Str.contains c piece = false.
Proof.
  induction s as [|a s IH]; simpl; intros piece H.
  - apply list_elem_of_singleton in H. subst piece. reflexivity.
  - destruct (Ascii.eqb a c) eqn:Hac.
    + apply elem_of_cons in H as [-> | H]; [reflexivity|apply IH, H].
    + destruct (Str.split c s) as [|h t] eqn:Hs.
      * apply list_elem_of_singleton in H. subst piece. simpl.
        rewrite Hac. reflexivity.
      * apply elem_of_cons in H as [-> | H].
        -- simpl. rewrite Hac. apply IH. left.
        -- apply IH. right. exact H.
Qed.

Lemma split_not_nil (c : ascii) (s : string) : Str.split c s <> [].
Proof.
  destruct s as [|a s]; simpl; [discriminate|].
  destruct (Ascii.eqb a c); [discriminate|].
  destruct (Str.split c s); discriminate.
Qed.

Lemma last_elem_of (l : list string) (d : string) :
  l <> [] -> List.last l d ∈ l.
Proof.
  induction l as [|x l IH]; [congruence|]. intros _.
  destruct l as [|y l]; [left|]. right. apply IH. discriminate.
Qed.

Lemma basename_no_slash (p : string) : Str.contains "/" (basename p) = false.
Proof.
  apply (split_no_separator "/" p). apply last_elem_of, split_not_nil.
Qed.

Lemma media_filename_no_slash (u : string) :
  Str.truthy (basename (urllib.path (urllib.urlparse u))) = true ->
  Str.contains "/" (url_to_filename W u) = false.
Proof.
  intros Hb. unfold url_to_filename. rewrite Hb. cbn [negb].
  do 3 (apply replace_keeps_absent; [discriminate|]).
  apply basename_no_slash.
Qed.


End MediaNames.

Section MediaDownloads.

Import Media.

Context (W : World).

Lemma save_chunks_written (path : string) (chunks : list string) :
  forall written written',
    save_chunks W path written chunks = (written', None) ->
    written' = written +:+ fold_right String.append EmptyString chunks.
Proof.
  induction chunks as [|chunk rest IH]; intros written written'; simpl.
  - intros [= <-]. induction written as [|a w IHw]; [reflexivity|].
    change (String a w = String a (w +:+ EmptyString)). f_equal. exact IHw.
  - destruct (Str.truthy chunk) eqn:Ht.
    + destruct (write_chunk W path chunk); [discriminate|].
      intros H. rewrite (IH _ _ H). apply append_assoc.
    + destruct chunk; [|discriminate]. apply IH.
Qed.

(** What [download_media] does for a URL that is not in
    [downloaded_urls]. *)
Lemma download_media_effect (self : downloader) (u : string) :
  u ∉ downloaded_urls self ->
  let r := download_media W self u in
  let ok := match snd r with Some _ => true | None => false end in
  base_url (fst r) = base_url self
  /\ output_dir (fst r) = output_dir self
  /\ domain (fst r) = domain self
  /\ requests (fst r) = requests self ++ [(u, ok)]
  /\ downloaded_urls (fst r)
     = (if ok then {[u]} ∪ downloaded_urls self else downloaded_urls self)
  /\ (files (fst r) = files self
      \/ exists ct content,
           files (fst r)
           = <[os_path.join (output_dir self)
                 [MediaDownloader.get_media_type u ct; url_to_filename W u]
               := content]> (files self)).
Proof.
  intros Hu. unfold download_media. rewrite bool_decide_false by exact Hu.
  destruct (requests_get W u) as [response|e]; simpl;
    [|repeat split; left; reflexivity].
  destruct (match header_content_length response with
            | Some s => py_int W s
            | None => inl 0%Z
            end) as [size|e]; simpl;
    [|repeat split; left; reflexivity].
  destruct (open_wb W _) as [e|]; simpl;
    [repeat split; left; reflexivity|].
  destruct (save_chunks W _ EmptyString (body response)) as [written e].
  destruct e as [e|]; simpl;
    [repeat split; right;
     exists (header_content_type response), written; reflexivity|].
  destruct (body_error response) as [e|]; simpl;
    repeat split; right;
    exists (header_content_type response), written; reflexivity.
Qed.

(** A URL that [download_media] has returned a path for is in
    [downloaded_urls], and a second call for it does nothing: no request,
    no file, no log record. *)
Theorem download_media_once (self self' : downloader) (u p : string) :
  download_media W self u = (self', Some p) ->
  u ∈ downloaded_urls self'
  /\ download_media W self' u = (self', None).
Proof.
  intros H.
  assert (Hu : u ∉ downloaded_urls self).
  { intros Hin. unfold download_media in H.
    rewrite bool_decide_true in H by exact Hin. discriminate. }
  destruct (download_media_effect self u Hu) as (_ & _ & _ & _ & Hd & _).
  rewrite H in Hd. simpl in Hd.
  assert (Hin : u ∈ downloaded_urls self').
  { rewrite Hd. apply elem_of_union. left. apply elem_of_singleton.
    reflexivity. }
  split; [exact Hin|].
  unfold download_media. rewrite bool_decide_true by exact Hin. reflexivity.
Qed.

(** When [download_media] returns a path, the server answered and the
    stream ended well; the path is
    [output_dir/get_media_type(url, Content-Type)/url_to_filename(url)]
    and the file there holds the chunks of the body, one after the other.
    When it returns [None], [downloaded_urls] is as before: a failed
    download is not remembered, so the URL is requested again when it is
    met again. *)
Theorem download_media_result (self : downloader) (u : string) :
  match snd (download_media W self u) with
  | Some p =>
      exists response,
        requests_get W u = Answer response
        /\ body_error response = None
        /\ p = os_path.join (output_dir self)
                 [MediaDownloader.get_media_type u
                    (header_content_type response);
                  url_to_filename W u]
        /\ files (fst (download_media W self u)) !! p
           = Some (fold_right String.append EmptyString (body response))
  | None =>
      downloaded_urls (fst (download_media W self u)) = downloaded_urls self
  end.
Proof.
  unfold download_media.
  destruct (bool_decide (u ∈ downloaded_urls self)); [reflexivity|].
  destruct (requests_get W u) as [response|e]; [|reflexivity].
  destruct (match header_content_length response with
            | Some s => py_int W s
            | None => inl 0%Z
            end) as [size|e]; [|reflexivity].
  destruct (open_wb W _) as [e|]; [reflexivity|].
  destruct (save_chunks W _ EmptyString (body response)) as [written e] eqn:Hs.
  destruct e as [e|]; [reflexivity|].
  destruct (body_error response) as [e|] eqn:Hb; [reflexivity|].
  simpl. exists response. split; [reflexivity|]. split; [exact Hb|].
  split; [reflexivity|].
  rewrite lookup_insert_eq. f_equal.
  apply (save_chunks_written _ _ _ _ Hs).
Qed.

Lemma sound_init (b o : string) : sound (init b o).
Proof.
  constructor; simpl.
  - intros u. split; intros H; [set_solver|inversion H].
  - intros u ok H. inversion H.
  - intros before after u H. destruct before; discriminate.
Qed.

Lemma sound_logger (l : Crawler.level) (msg : string) (self : downloader) :
  sound self -> sound (logger l msg self).
Proof. intros [H1 H2 H3]. constructor; assumption. Qed.

Lemma sound_download_media (self : downloader) (u : string) :
  sound self ->
  urllib.netloc (urllib.urlparse u) = domain self ->
  sound (fst (download_media W self u)).
Proof.
  intros [Hd Hs Ho] Hdom.
  destruct (decide (u ∈ downloaded_urls self)) as [Hu | Hu].
  { unfold download_media. rewrite bool_decide_true by exact Hu.
    constructor; assumption. }
  destruct (download_media_effect self u Hu)
    as (_ & _ & Hdom' & Hreq & Hdl & _).
  destruct (download_media W self u) as [self' r]. cbn [fst snd] in *.
  constructor.
  - intros x. destruct r as [p|]; rewrite Hdl, Hreq, elem_of_app.
    + rewrite elem_of_union, elem_of_singleton, Hd, list_elem_of_singleton.
      split.
      * intros [-> | H]; [right; reflexivity|left; exact H].
      * intros [H | [= ->]]; [right; exact H|left; reflexivity].
    + rewrite Hd, list_elem_of_singleton.
      split; [intros H; left; exact H|].
      intros [H | H]; [exact H|discriminate H].
  - intros x ok. rewrite Hreq, elem_of_app, Hdom'.
    intros [H | H]; [apply (Hs x ok H)|].
    apply list_elem_of_singleton in H. injection H as -> _. exact Hdom.
  - intros before after x Heq. rewrite Hreq in Heq.
    destruct after as [|a0 after0] using rev_ind; [intros H; inversion H|].
    clear IHafter0.
    rewrite app_comm_cons, app_assoc in Heq.
    apply app_inj_tail in Heq as [Heq Ha]. subst a0.
    rewrite map_app, elem_of_app. simpl. intros [H | H].
    + apply (Ho before after0 x Heq H).
    + apply list_elem_of_singleton in H. subst x.
      apply Hu, Hd. rewrite Heq. apply elem_of_app. right. left.
Qed.

(** A property of the downloader that logging and the downloads of
    [process_html_directory] keep is kept by
    [process_html_directory]. *)
Lemma process_html_directory_keeps (P : downloader -> Prop) :
  (forall self l msg, P self -> P (logger l msg self)) ->
  (forall self u,
      P self -> urllib.netloc (urllib.urlparse u) = domain self ->
      P (fst (download_media W self u))) ->
  forall self html_dir base,
    P self -> P (process_html_directory W self html_dir base).
Proof.
  intros Hlog Hdl.
  assert (Hall : forall urls self, P self -> P (download_all W self urls)).
  { induction urls as [|u urls IH]; intros self HP; simpl; [exact HP|].
    destruct (String.eqb _ _) eqn:E; [|apply IH, HP].
    apply IH, Hdl; [exact HP|apply String.eqb_eq, E]. }
  assert (Hfiles : forall fs self base,
             P self -> P (process_files W self fs base)).
  { induction fs as [|f fs IH]; intros self base HP; simpl; [exact HP|].
    unfold extract_media_from_html.
    destruct (read W self f); apply IH, Hall; [exact HP|apply Hlog, HP]. }
  intros self html_dir base HP. unfold process_html_directory.
  destruct (negb (path_exists W html_dir)); [apply Hlog, HP|].
  apply Hfiles, Hlog, HP.
Qed.

(** After [process_html_directory], started on a new downloader: every
    request went to a URL whose network location is that of the base
    URL; [downloaded_urls] holds the URLs a request succeeded for; and no
    URL was requested again after a request for it had succeeded. *)
Theorem process_html_directory_scope_and_once (b o html_dir base : string) :
  let s := process_html_directory W (init b o) html_dir base in
  (forall u ok,
      (u, ok) ∈ requests s ->
      urllib.netloc (urllib.urlparse u) = urllib.netloc (urllib.urlparse b))
  /\ (forall u, u ∈ downloaded_urls s <-> (u, true) ∈ requests s)
  /\ (forall before after u,
        requests s = before ++ (u, true) :: after -> u ∉ map fst after).
Proof.
  intros s.
  assert (H : sound s /\ domain s = urllib.netloc (urllib.urlparse b)).
  { apply (process_html_directory_keeps
             (fun x => sound x
                       /\ domain x = urllib.netloc (urllib.urlparse b))).
    - intros self l msg [H1 H2]. split; [apply sound_logger, H1|exact H2].
    - intros self u [H1 H2] Hu. split; [apply sound_download_media; assumption|].
      destruct (decide (u ∈ downloaded_urls self)) as [Hin | Hin].
      + unfold download_media. rewrite bool_decide_true by exact Hin. exact H2.
      + destruct (download_media_effect self u Hin) as (_ & _ & Hd & _).
        rewrite Hd. exact H2.
    - split; [apply sound_init|reflexivity]. }
  destruct H as [[H1 H2 H3] Hd].
  split; [|split; [exact H1|exact H3]].
  intros u ok Hu. rewrite <- Hd. apply (H2 u ok Hu).
Qed.

Lemma replace_relative (x d : ascii) (s : string) :
  d <> "/"%char -> Str.startswith "/" s = false ->
  Str.startswith "/" (Str.replace x d s) = false.
Proof.
  intros Hd. destruct s as [|a s]; [reflexivity|]. intros Hs.
  destruct (Str.startswith "/" (Str.replace x d (String a s))) eqn:E;
    [|reflexivity].
  simpl in E. apply startswith_head in E.
  destruct (Ascii.eqb a x) eqn:Hax; [congruence|].
  subst a. pose proof (startswith_append "/" s) as H1.
  change ("/" +:+ s) with (String "/" s) in H1. congruence.
Qed.

Lemma media_filename_relative (u : string) :
  Str.startswith "/" (url_to_filename W u) = false.
Proof.
  destruct (Str.truthy (basename (urllib.path (urllib.urlparse u)))) eqn:Hb.
  - apply no_slash_relative.
    apply (media_filename_no_slash W u Hb).
  - unfold url_to_filename. rewrite Hb. cbn [negb].
    do 3 (apply replace_relative; [discriminate|]).
    destruct (guess_type W u) as [ct|]; [|reflexivity].
    destruct (Str.truthy ct); [|reflexivity].
    destruct (guess_extension W ct) as [ext|]; [|reflexivity].
    destruct (Str.truthy ext); reflexivity.
Qed.

Lemma media_path_below_output_dir (o u : string) (ct : option string) :
  Str.startswith o
    (os_path.join o [MediaDownloader.get_media_type u ct; url_to_filename W u])
  = true.
Proof.
  unfold os_path.join. simpl fold_left.
  destruct (join2_relative o (MediaDownloader.get_media_type u ct))
    as [t1 E1].
  { pose proof (get_media_type_cases u ct) as H.
    repeat (apply elem_of_cons in H as [-> | H]; [reflexivity|]).
    inversion H. }
  destruct (join2_relative
              (os_path.join2 o (MediaDownloader.get_media_type u ct))
              (url_to_filename W u)) as [t2 E2].
  { apply media_filename_relative. }
  rewrite E2, E1, append_assoc. apply startswith_append.
Qed.

(** Every file [process_html_directory] writes, started on a new
    downloader, lies below the output directory. *)
Theorem media_files_below_output_dir (b o html_dir base p : string) :
  is_Some (files (process_html_directory W (init b o) html_dir base) !! p) ->
  Str.startswith o p = true.
Proof.
  assert (H : output_dir (process_html_directory W (init b o) html_dir base)
              = o
              /\ forall q,
                   is_Some (files (process_html_directory W (init b o)
                                     html_dir base) !! q) ->
                   Str.startswith o q = true).
  { apply (process_html_directory_keeps
             (fun x => output_dir x = o
                       /\ forall q, is_Some (files x !! q) ->
                                    Str.startswith o q = true)).
    - intros self l msg H. exact H.
    - intros self u [Ho Hf] _.
      destruct (decide (u ∈ downloaded_urls self)) as [Hin | Hin].
      { unfold download_media. rewrite bool_decide_true by exact Hin.
        split; assumption. }
      destruct (download_media_effect self u Hin)
        as (_ & Ho' & _ & _ & _ & Hfiles).
      split; [rewrite Ho'; exact Ho|].
      intros q Hq.
      destruct Hfiles as [Hf' | (ct & content & Hf')]; rewrite Hf' in Hq;
        [apply Hf, Hq|].
      apply lookup_insert_is_Some in Hq as [<- | [_ Hq]]; [|apply Hf, Hq].
      rewrite Ho. apply media_path_below_output_dir.
    - split; [reflexivity|]. intros q Hq. simpl in Hq.
      rewrite lookup_empty in Hq. destruct Hq as [x Hx]. discriminate. }
  apply H.
Qed.

End MediaDownloads.

Section MediaStreams.

Import Media.

Context (W : World).

(** When the stream of a download breaks off after the file was opened,
    [download_media] returns [None] and logs the error, the URL does not
    enter [downloaded_urls], and the chunks received so far stay in the
    file: the partial file is not removed. *)
Theorem download_media_broken_stream (self : downloader) (u e : string)
    (response : Response) (size : Z) :
  u ∉ downloaded_urls self ->
  requests_get W u = Answer response ->
  match header_content_length response with
  | Some s => py_int W s
  | None => inl 0%Z
  end = inl size ->
  let p := os_path.join (output_dir self)
             [MediaDownloader.get_media_type u (header_content_type response);
              url_to_filename W u] in
  open_wb W p = None ->
  (forall chunk, chunk ∈ body response -> write_chunk W p chunk = None) ->
  body_error response = Some e ->
  let r := download_media W self u in
  snd r = None
  /\ downloaded_urls (fst r) = downloaded_urls self
  /\ files (fst r)
     = <[p := fold_right String.append EmptyString (body response)]>
         (files self)
  /\ log (fst r)
     = log self
       ++ [(Crawler.ERROR, "Error downloading media " +:+ u +:+ ": " +:+ e)].
Proof.
  intros Hu Hget Hlen p Hopen Hwrite Herr.
  assert (Hsave : forall chunks written,
             (forall chunk, chunk ∈ chunks -> write_chunk W p chunk = None) ->
             save_chunks W p written chunks
             = (written +:+ fold_right String.append EmptyString chunks, None)).
  { induction chunks as [|chunk rest IH]; intros written Hall; simpl.
    - f_equal. induction written as [|a w IHw]; [reflexivity|].
      change (String a w = String a (w +:+ EmptyString)). f_equal. exact IHw.
    - destruct (Str.truthy chunk) eqn:Ht.
      + rewrite (Hall chunk) by left.
        rewrite IH by (intros c Hc; apply Hall; right; exact Hc).
        rewrite append_assoc. reflexivity.
      + destruct chunk; [|discriminate].
        apply IH. intros c Hc. apply Hall. right. exact Hc. }
  unfold download_media. rewrite bool_decide_false by exact Hu.
  rewrite Hget, Hlen. fold p. rewrite Hopen.
  rewrite (Hsave (body response) EmptyString Hwrite), Herr.
  simpl. repeat split; reflexivity.
Qed.

End MediaStreams.

(** * The further properties on small inputs *)

Section MoreOnSites.

Import Crawler Sites MoreSites.






(** With Firefox only: Chrome is tried first, Firefox is taken, Edge is
    not tried. *)
Example setup_selenium_firefox_only :
  Selenium.setup_selenium Selenium.firefox_only
  = (Selenium.Driver 7, ["chrome"; "firefox"],
     [Selenium.Warning "Chrome setup failed: Could not reach host";
      Selenium.Info "Successfully initialized firefox driver"]).
Proof. reflexivity. Qed.

End MoreOnSites.

Section OnArchive.

Import Media MediaSites.

Lemma download_media_once_witness :
  "https://x/logo.png"
  ∈ downloaded_urls
      (fst (download_media archive (init "https://x/" "data/media")
              "https://x/logo.png"))
  /\ download_media archive
       (fst (download_media archive (init "https://x/" "data/media")
               "https://x/logo.png"))
       "https://x/logo.png"
     = (fst (download_media archive (init "https://x/" "data/media")
               "https://x/logo.png"), None).
Proof.
  apply (download_media_once archive (init "https://x/" "data/media")
           (fst (download_media archive (init "https://x/" "data/media")
                   "https://x/logo.png"))
           "https://x/logo.png" "data/media/images/logo.png").
  vm_compute. reflexivity.
Defined.

Lemma media_files_below_output_dir_witness :
  Str.startswith "data/media" "data/media/images/logo.png" = true.
Proof.
  apply (media_files_below_output_dir archive "https://x/" "data/media"
           "data/raw/html" "https://x/" "data/media/images/logo.png").
  exists "PNGend". vm_compute. reflexivity.
Defined.

(** The report breaks off after its first chunk: the chunk stays on the
    disk and the URL is not marked as downloaded. *)
Lemma download_media_broken_stream_witness :
  snd (download_media archive (init "https://x/" "data/media")
         "https://x/report.pdf") = None
  /\ files (fst (download_media archive (init "https://x/" "data/media")
                   "https://x/report.pdf"))
     !! "data/media/documents/report.pdf" = Some "%PDF".
Proof.
  destruct (download_media_broken_stream archive
              (init "https://x/" "data/media") "https://x/report.pdf"
              "Connection broken"
              (mkResponse (Some "application/pdf") None ["%PDF"]
                 (Some "Connection broken")) 0%Z)
    as (Hr & _ & Hf & _).
  - apply (bool_decide_unpack _). vm_compute. exact I.
  - reflexivity.
  - reflexivity.
  - reflexivity.
  - intros chunk _. reflexivity.
  - reflexivity.
  - split; [exact Hr|]. rewrite Hf. vm_compute. reflexivity.
Defined.

(** On the archive: the logo, linked twice, is requested once; the image
    on another host is not requested. *)
Example process_html_directory_archive :
  requests (process_html_directory archive (init "https://x/" "data/media")
              "data/raw/html" "https://x/")
  = [("https://x/logo.png", true); ("https://x/report.pdf", false)].
Proof. vm_compute. reflexivity. Qed.

End OnArchive.
